(** * A shallow embedding of navdb ([src/main.py]) and its specification

    Python strings are modelled as [String.string]; an [ascii] character is
    read as the Latin-1 code point of the same number, and the string
    predicates ([isalpha], [isdigit], [isalnum], [isspace]) follow Python's
    Unicode tables on that range.  Python floats are modelled by exact
    rationals [Q]; the external geodesic routine ([geographiclib]) and the
    date parser of the standard library are modelled below.  Python
    exceptions are the constructors of [PyErr]; code that may raise runs in
    the result monad [result]. *)

From Stdlib Require Import QArith Qabs ZArith Ascii String Lia Lqa.
From stdpp Require Import base gmap strings list.

Open Scope string_scope.
Open Scope nat_scope.

(* ------------------------------------------------------------------ *)
(** ** Exceptions and the result monad *)

Inductive PyErr :=
| ElementNotFoundError (s : string)
| ElementAmbiguousError (s : string)
| NotOnAirwayError (wpt awy : string)
| IllegalCharacterError (s : string)
| UnnamedFormatError (s : string)
| UnnamedOutOfBounds (s : string)
| WrongAIRACcycleError (s : string)
| KeyError (s : string)
| IndexError
| ValueError
| AttributeError
| AssertionError
| FileNotFoundError (path : string).

Inductive result (A : Type) : Type :=
| Ok (a : A)
| Err (e : PyErr).
Arguments Ok {A} a.
Arguments Err {A} e.

Global Instance result_ret : MRet result := fun A a => Ok a.
Global Instance result_bind : MBind result := fun A B f m =>
  match m with Ok a => f a | Err e => Err e end.

Definition raise {A} (e : PyErr) : result A := Err e.

Definition is_err {A} (r : result A) : bool :=
  match r with Ok _ => false | Err _ => true end.

(* ------------------------------------------------------------------ *)
(** ** Characters (Latin-1 range of Python's [str]) *)

Definition code (c : ascii) : nat := nat_of_ascii c.

Definition py_isspace_char (c : ascii) : bool :=
  let n := code c in
  ((9 <=? n) && (n <=? 13)) || ((28 <=? n) && (n <=? 32))
  || (n =? 133) || (n =? 160).

Definition py_isalpha_char (c : ascii) : bool :=
  let n := code c in
  ((65 <=? n) && (n <=? 90)) || ((97 <=? n) && (n <=? 122))
  || (n =? 170) || (n =? 181) || (n =? 186)
  || ((192 <=? n) && (n <=? 214)) || ((216 <=? n) && (n <=? 246))
  || ((248 <=? n) && (n <=? 255)).

(** ASCII decimal digits: the only characters [int] and [float] accept. *)
Definition is_ascii_digit (c : ascii) : bool :=
  let n := code c in (48 <=? n) && (n <=? 57).

(** [str.isdigit] also accepts the superscripts 2, 3 and 1. *)
Definition py_isdigit_char (c : ascii) : bool :=
  is_ascii_digit c || (code c =? 178) || (code c =? 179) || (code c =? 185).

(** [str.isnumeric] adds the vulgar fractions 1/4, 1/2 and 3/4. *)
Definition py_isnumeric_char (c : ascii) : bool :=
  py_isdigit_char c || (code c =? 188) || (code c =? 189) || (code c =? 190).

Definition py_isalnum_char (c : ascii) : bool :=
  py_isalpha_char c || py_isnumeric_char c.

(* ------------------------------------------------------------------ *)
(** ** String methods *)

Definition chars (s : string) : list ascii := list_ascii_of_string s.

(** [s[a:b]] for [0 <= a], [0 <= b]: clamped to the string. *)
Definition py_slice (s : string) (a b : nat) : string :=
  substring a (b - a) s.

(** [s[a:]] *)
Definition py_slice_from (s : string) (a : nat) : string :=
  py_slice s a (String.length s).

(** [s[i]] for [0 <= i]: an [IndexError] past the end. *)
Definition py_index (s : string) (i : nat) : result ascii :=
  match String.get i s with Some c => Ok c | None => Err IndexError end.

(** [s[i] == c] where [s[i]] is known to exist. *)
Definition char_at_is (s : string) (i : nat) (c : ascii) : bool :=
  match String.get i s with Some d => Ascii.eqb d c | None => false end.

Definition py_isdigit (s : string) : bool :=
  negb (String.eqb s "") && forallb py_isdigit_char (chars s).

Definition py_isalpha (s : string) : bool :=
  negb (String.eqb s "") && forallb py_isalpha_char (chars s).

Definition py_isalnum (s : string) : bool :=
  negb (String.eqb s "") && forallb py_isalnum_char (chars s).

(** [s.count(c)] for a one-character [c]. *)
Definition py_count (s : string) (c : ascii) : nat :=
  List.length (List.filter (fun d => Ascii.eqb d c) (chars s)).

(** [s.replace(c, '')] for a one-character [c]. *)
Definition py_remove (s : string) (c : ascii) : string :=
  string_of_list_ascii (List.filter (fun d => negb (Ascii.eqb d c)) (chars s)).

Fixpoint drop_space (l : list ascii) : list ascii :=
  match l with
  | c :: l' => if py_isspace_char c then drop_space l' else l
  | [] => []
  end.

(** [s.rstrip()], [s.strip()] *)
Definition py_rstrip (s : string) : string :=
  string_of_list_ascii (rev (drop_space (rev (chars s)))).

Definition py_strip (s : string) : string :=
  string_of_list_ascii (rev (drop_space (rev (drop_space (chars s))))).

(** [s.split()]: runs of whitespace separate the fields, and leading or
    trailing whitespace gives no empty field. *)
Fixpoint split_aux (l : list ascii) (cur : list ascii) : list string :=
  match l with
  | [] => match cur with [] => [] | _ => [string_of_list_ascii (rev cur)] end
  | c :: l' =>
      if py_isspace_char c then
        match cur with
        | [] => split_aux l' []
        | _ => string_of_list_ascii (rev cur) :: split_aux l' []
        end
      else split_aux l' (c :: cur)
  end.

Definition py_split (s : string) : list string := split_aux (chars s) [].

(** [a in b] for strings: substring containment. *)
Definition py_contains (hay needle : string) : bool :=
  match String.index 0 needle hay with Some _ => true | None => false end.

(* ------------------------------------------------------------------ *)
(** ** [int()] and [float()] on strings *)

Definition digit_val (c : ascii) : Z := Z.of_nat (code c - 48).

(** The rest of a digit group [d(_?d)*]: an underscore only between two
    digits.  Returns the value, the number of digits and the rest. *)
Fixpoint more_digits (l : list ascii) (acc : Z) (n : nat)
  : Z * nat * list ascii :=
  match l with
  | c :: l' =>
      if is_ascii_digit c then more_digits l' (acc * 10 + digit_val c) (S n)
      else if Ascii.eqb c "_"%char then
        match l' with
        | d :: l'' =>
            if is_ascii_digit d then more_digits l'' (acc * 10 + digit_val d) (S n)
            else (acc, n, l)
        | [] => (acc, n, l)
        end
      else (acc, n, l)
  | [] => (acc, n, [])
  end.

Definition digit_group (l : list ascii) : option (Z * nat * list ascii) :=
  match l with
  | c :: l' => if is_ascii_digit c then Some (more_digits l' (digit_val c) 1)
               else None
  | [] => None
  end.

Definition strip_chars (s : string) : list ascii :=
  rev (drop_space (rev (drop_space (chars s)))).

Definition sign_of (l : list ascii) : Z * list ascii :=
  match l with
  | c :: l' => if Ascii.eqb c "-"%char then (-1, l')%Z
               else if Ascii.eqb c "+"%char then (1, l')%Z else (1%Z, l)
  | [] => (1%Z, [])
  end.

(** [int(s)] (base 10). *)
Definition py_int (s : string) : result Z :=
  let '(sg, l) := sign_of (strip_chars s) in
  match digit_group l with
  | Some (v, _, []) => Ok (sg * v)%Z
  | _ => Err ValueError
  end.

(** [float(s)] for finite decimal literals [[+-]ddd[.ddd][e[+-]ddd]], with
    the value kept exact.  The non-finite literals ([inf], [nan]) have no
    rational value and are outside the model: they are refused here. *)
Definition py_float (s : string) : result Q :=
  let '(sg, l) := sign_of (strip_chars s) in
  let '(ip, l1) := match digit_group l with
                   | Some (v, n, r) => (Some (v, n), r)
                   | None => (None, l)
                   end in
  let '(fp, l2) := match l1 with
                   | c :: r => if Ascii.eqb c "."%char then
                                 match digit_group r with
                                 | Some (v, n, r') => (Some (v, n), r')
                                 | None => (Some (0%Z, 0), r)
                                 end
                               else (None, l1)
                   | [] => (None, l1)
                   end in
  let '(ok_exp, ex, l3) :=
    match l2 with
    | c :: r => if Ascii.eqb c "e"%char || Ascii.eqb c "E"%char then
                  let '(esg, r1) := sign_of r in
                  match digit_group r1 with
                  | Some (v, _, r2) => (true, esg * v, r2)%Z
                  | None => (false, 0%Z, l2)
                  end
                else (true, 0%Z, l2)
    | [] => (true, 0%Z, l2)
    end in
  let has_digits :=
    match ip, fp with
    | Some _, _ => true
    | None, Some (_, S _) => true
    | _, _ => false
    end in
  match l3 with
  | [] =>
      if has_digits && ok_exp then
        let '(iv, _) := default (0%Z, 0) ip in
        let '(fv, fn) := default (0%Z, 0) fp in
        let m := (iv * 10 ^ Z.of_nat fn + fv)%Z in
        Ok (inject_Z (sg * m) * Qpower (10 # 1) (ex - Z.of_nat fn))%Q
      else Err ValueError
  | _ => Err ValueError
  end.

(* ------------------------------------------------------------------ *)
(** ** [datetime.strptime(s, "%d/%b/%Y")]

    The directive regexes of [_strptime] for the C locale:
    [%d] is [3[01]|[12]\d|0[1-9]|[1-9]| [1-9]], [%b] a month abbreviation
    (case-insensitive), [%Y] is [\d\d\d\d]; the alternatives of [%d] are
    tried in order, the whole string must be consumed, and the date must
    exist (year at least 1, day within the month). *)

Record date := mkDate { year : Z; month : Z; day : Z }.

Definition ascii_lower (c : ascii) : ascii :=
  if (65 <=? code c) && (code c <=? 90) then ascii_of_nat (code c + 32) else c.

Definition month_names : list string :=
  ["jan"; "feb"; "mar"; "apr"; "may"; "jun";
   "jul"; "aug"; "sep"; "oct"; "nov"; "dec"].

Fixpoint month_index (names : list string) (m : string) (k : Z) : option Z :=
  match names with
  | [] => None
  | n :: ns => if String.eqb n m then Some k else month_index ns m (k + 1)
  end.

Definition day_alts (l : list ascii) : list (Z * list ascii) :=
  let d1 c := is_ascii_digit c && negb (Ascii.eqb c "0"%char) in
  match l with
  | a :: b :: r =>
      (if Ascii.eqb a "3"%char && (Ascii.eqb b "0"%char || Ascii.eqb b "1"%char)
       then [(30 + digit_val b, r)%Z] else [])
      ++ (if (Ascii.eqb a "1"%char || Ascii.eqb a "2"%char) && is_ascii_digit b
          then [(10 * digit_val a + digit_val b, r)%Z] else [])
      ++ (if Ascii.eqb a "0"%char && d1 b then [(digit_val b, r)] else [])
      ++ (if d1 a then [(digit_val a, b :: r)] else [])
      ++ (if Ascii.eqb a " "%char && d1 b then [(digit_val b, r)] else [])
  | [a] => if d1 a then [(digit_val a, [])] else []
  | [] => []
  end.

(** [/%b/%Y] after the day: month, year and the unconsumed rest. *)
Definition month_year (l : list ascii) : option (Z * Z * list ascii) :=
  match l with
  | s1 :: m1 :: m2 :: m3 :: s2 :: y1 :: y2 :: y3 :: y4 :: r =>
      if Ascii.eqb s1 "/"%char && Ascii.eqb s2 "/"%char
         && forallb is_ascii_digit [y1; y2; y3; y4] then
        match month_index month_names
                (string_of_list_ascii (map ascii_lower [m1; m2; m3])) 1 with
        | Some m =>
            Some (m, (1000 * digit_val y1 + 100 * digit_val y2
                      + 10 * digit_val y3 + digit_val y4)%Z, r)
        | None => None
        end
      else None
  | _ => None
  end.

Fixpoint first_match (alts : list (Z * list ascii)) : option (Z * Z * Z * list ascii) :=
  match alts with
  | [] => None
  | (d, r) :: alts' =>
      match month_year r with
      | Some (m, y, r') => Some (d, m, y, r')
      | None => first_match alts'
      end
  end.

Definition is_leap (y : Z) : bool :=
  (Z.eqb (y mod 4) 0 && negb (Z.eqb (y mod 100) 0)) || Z.eqb (y mod 400) 0.

Definition days_in_month (y m : Z) : Z :=
  if Z.eqb m 2 then (if is_leap y then 29 else 28)
  else if Z.eqb m 4 || Z.eqb m 6 || Z.eqb m 9 || Z.eqb m 11 then 30 else 31.

Definition strptime_dmy (s : string) : result date :=
  match first_match (day_alts (chars s)) with
  | Some (d, m, y, []) =>
      if (1 <=? y)%Z && (d <=? days_in_month y m)%Z
      then Ok (mkDate y m d) else Err ValueError
  | _ => Err ValueError
  end.

(* ------------------------------------------------------------------ *)
(** ** [AIRACcycle] *)

(** The [date_str] attribute, a formatting of the two dates, is not kept. *)
Record AIRACcycle := mkAIRAC {
  cycle : Z;
  date_begin : date;
  date_end : date
}.

Definition AIRACcycle_init (s : string) : result AIRACcycle :=
  if negb (py_contains (py_slice s 1 6) "AIRAC") then Err AssertionError else
  c ← py_int (py_slice s 15 19);
  b ← strptime_dmy (py_slice s 21 32);
  e ← strptime_dmy (py_slice s 35 46);
  Ok (mkAIRAC c b e).

(** [AIRACcycle.__eq__]: by cycle number only. *)
Definition AIRACcycle_eq (a b : AIRACcycle) : bool := Z.eqb (cycle a) (cycle b).

(* ------------------------------------------------------------------ *)
(** ** Waypoints and object identity

    [WayPoint] and its subclasses [NavAid], [Airport], [Runway] and
    [UnnamedWaypoint] differ only in their constructors, which set [type]
    and [descr].  None of them defines [__eq__], so [==] between two of
    them is object identity: an [Obj] pairs the attribute values with the
    identity of the Python object.  Objects built by the loader are
    numbered in creation order; the [UnnamedWaypoint] built by [expandFPL]
    for its [i]-th token is [OUnnamed i]. *)

Record WayPoint := mkWpt {
  name : string;
  lat : Q;
  lon : Q;
  type : string;
  descr : string
}.

Inductive ObjId := OLoaded (n : nat) | OUnnamed (i : nat).

Global Instance ObjId_eq_dec : EqDecision ObjId.
Proof. solve_decision. Defined.

Record Obj := mkObj { oid : ObjId; obj : WayPoint }.

(** [a == b] where [b] may be [None]. *)
Definition py_is (a : Obj) (b : option Obj) : bool :=
  match b with Some b' => bool_decide (oid a = oid b') | None => false end.

Definition WayPoint_init (n : string) (la lo : Q) : WayPoint :=
  mkWpt n la lo "WPT" "".
Definition NavAid_init (n : string) (la lo : Q) (t d : string) : WayPoint :=
  mkWpt n la lo t d.
Definition Airport_init (n : string) (la lo : Q) (d : string) : WayPoint :=
  mkWpt n la lo "ARP" d.
Definition Runway_init (n : string) (la lo : Q) (d : string) : WayPoint :=
  mkWpt n la lo "RWY" d.

(* ------------------------------------------------------------------ *)
(** ** Python lists *)

(** [l.index(x)]: the first position, or [None] for [ValueError]. *)
Fixpoint py_list_index {A} (eqb : A -> A -> bool) (l : list A) (x : A)
  : option nat :=
  match l with
  | [] => None
  | y :: l' => if eqb y x then Some 0
               else option_map S (py_list_index eqb l' x)
  end.

(** [l[i]], negative indices counting from the end. *)
Definition py_get {A} (l : list A) (i : Z) : result A :=
  let j := if (i <? 0)%Z then (Z.of_nat (List.length l) + i)%Z else i in
  if (j <? 0)%Z then Err IndexError else
  match nth_error l (Z.to_nat j) with Some a => Ok a | None => Err IndexError end.

Fixpoint range_aux (fuel : nat) (i stop step : Z) : list Z :=
  match fuel with
  | O => []
  | S f => if ((0 <? step) && (i <? stop)) || ((step <? 0) && (stop <? i))
           then i :: range_aux f (i + step) stop step else []
  end%Z.

(** [range(start, stop, step)]. *)
Definition py_range (start stop step : Z) : result (list Z) :=
  if Z.eqb step 0 then Err ValueError
  else Ok (range_aux (Z.to_nat (Z.abs (stop - start))) start stop step).

(** [x < y] on floats. *)
Definition Qlt_bool (x y : Q) : bool := negb (Qle_bool y x).

(** [min(l)] keeps the first of equal minima: an item replaces the current
    one only when it is strictly smaller. *)
Definition py_min (l : list Q) : result Q :=
  match l with
  | [] => Err ValueError
  | x :: l' => Ok (fold_left (fun cur y => if Qlt_bool y cur then y else cur) l' x)
  end.

(* ------------------------------------------------------------------ *)
(** ** [Route] *)

Record Route := mkRoute {
  rname : string;
  r_wpts : list Obj;
  r_wptnames : list string
}.

Definition Route_init (n : string) : Route := mkRoute n [] [].

Definition addWaypoint (r : Route) (w : Obj) : Route :=
  mkRoute (rname r) (r_wpts r ++ [w]) (r_wptnames r ++ [name (obj w)]).

Definition getWaypoints (r : Route) (entry exit : string) : result (list Obj) :=
  entry_index ← match py_list_index String.eqb (r_wptnames r) entry with
                | Some i => Ok (Z.of_nat i)
                | None => Err (NotOnAirwayError entry (rname r))
                end;
  exit_index ← match py_list_index String.eqb (r_wptnames r) exit with
               | Some i => Ok (Z.of_nat i)
               | None => Err (NotOnAirwayError exit (rname r))
               end;
  let step := if (exit_index <? entry_index)%Z then (-1)%Z else 1%Z in
  idx ← py_range entry_index exit_index step;
  mapM (py_get (r_wpts r)) idx.

(* ------------------------------------------------------------------ *)
(** ** [NavDB] *)

Record NavDB := mkNavDB {
  airac : option AIRACcycle;
  _awys : gmap string Route;
  _wpts : gmap string (list Obj);
  _nonavaids : nat;
  _nofixes : nat;
  _norwys : nat;
  _noarpts : nat;
  _noawys : nat
}.

(** [self._wpts[k]]: a [KeyError] when the name is absent. *)
Definition wpts_lookup (db : NavDB) (k : string) : result (list Obj) :=
  match _wpts db !! k with Some l => Ok l | None => Err (KeyError k) end.

(* ------------------------------------------------------------------ *)
(** ** [getFPLelemtype], the token classifier *)

Definition count_if (p : ascii -> bool) (s : string) : nat :=
  List.length (List.filter p (chars s)).

Definition getFPLelemtype (db : NavDB) (_elem : string) : option string :=
  let no_aph := count_if py_isalpha_char _elem in
  let no_dig := count_if py_isdigit_char _elem in
  let no_dir := py_count _elem "N" + py_count _elem "S"
                + py_count _elem "W" + py_count _elem "E" in
  let no_tot := String.length _elem in
  if String.eqb _elem "DCT" then Some "dct"
  else if (no_dir =? 2) && existsb (Nat.eqb no_tot) [7; 11; 12; 15; 16]
          && (5 <=? no_dig) then Some "ufx"
  else if (no_tot =? 5) && char_at_is _elem 0 "H" && (no_dig =? 4) then Some "ufx"
  else if (no_tot =? 4) && py_contains (py_slice _elem 0 3) "NAT" then
    (if match String.get 3 _elem with
        | Some c => py_isalpha_char c | None => false end
     then Some "nat" else None)
  else if (no_tot =? 4) && (no_dig =? 0) then Some "apt"
  else if existsb (Nat.eqb no_tot) [7; 8] && char_at_is _elem 4 "R"
          && py_isdigit (py_slice _elem 5 7) then Some "rwy"
  else if (no_aph =? 1) && (4 <=? no_dig) then Some "fix"
  else if py_isalpha _elem && (no_tot <? 6) then Some "fix"
  else if bool_decide (is_Some (_awys db !! _elem)) then Some "awy"
  else if bool_decide (is_Some (_wpts db !! _elem)) then Some "fix"
  else Some "prc".

(* ------------------------------------------------------------------ *)
(** ** [UnnamedWaypoint.__init__], the coordinate decoder *)

(** [_name[i] in "..."] for a character known to exist. *)
Definition char_in (s : string) (i : nat) (set : string) : bool :=
  match String.get i s with
  | Some c => existsb (Ascii.eqb c) (chars set)
  | None => false
  end.

(** [float(s[a:b]) + float(s[c:d])/60.] *)
Definition deg_min (s : string) (a b c d : nat) : result Q :=
  x ← py_float (py_slice s a b);
  y ← py_float (py_slice s c d);
  Ok (x + y / 60)%Q.

Definition sgn (s : string) (i : nat) (neg : ascii) : Q :=
  if char_at_is s i neg then (-1)%Q else 1%Q.

(** The six fixed-column layouts, selected by the length of the token. *)
Definition decode_layout (_name : string) : result (Q * Q) :=
  let fixlen := String.length _name in
        if fixlen =? 16 then
          if negb (char_in _name 0 "NS" && char_in _name 8 "EW"
                   && char_in _name 7 "/" && char_in _name 5 "."
                   && char_in _name 14 "."
                   && py_isdigit (py_slice _name 1 5)
                   && py_isdigit (py_slice _name 6 7)
                   && py_isdigit (py_slice _name 9 14)
                   && py_isdigit (py_slice _name 15 16))
          then Err (UnnamedFormatError _name) else
          la ← deg_min _name 1 3 3 7;
          lo ← deg_min _name 9 12 12 16;
          Ok (sgn _name 0 "S" * la, sgn _name 8 "W" * lo)%Q
        else if fixlen =? 12 then
          if negb (char_in _name 4 "NS" && char_in _name 11 "EW"
                   && char_in _name 5 "/"
                   && py_isdigit (py_slice _name 0 4)
                   && py_isdigit (py_slice _name 6 11))
          then Err (UnnamedFormatError _name) else
          la ← deg_min _name 0 2 2 4;
          lo ← deg_min _name 6 9 9 11;
          Ok (sgn _name 4 "S" * la, sgn _name 11 "W" * lo)%Q
        else if fixlen =? 15 then
          if negb (char_in _name 6 "NS" && char_in _name 14 "EW"
                   && char_in _name 4 "." && char_in _name 12 "."
                   && py_isdigit (py_slice _name 0 4)
                   && py_isdigit (py_slice _name 5 6)
                   && py_isdigit (py_slice _name 7 12)
                   && py_isdigit (py_slice _name 13 14))
          then Err (UnnamedFormatError _name) else
          la ← deg_min _name 0 2 2 6;
          lo ← deg_min _name 7 10 10 14;
          Ok (sgn _name 6 "S" * la, sgn _name 14 "W" * lo)%Q
        else if fixlen =? 11 then
          if negb (char_in _name 4 "NS" && char_in _name 10 "EW"
                   && py_isdigit (py_slice _name 0 4)
                   && py_isdigit (py_slice _name 5 10))
          then Err (UnnamedFormatError _name) else
          la ← deg_min _name 0 2 2 4;
          lo ← deg_min _name 5 8 8 10;
          Ok (sgn _name 4 "S" * la, sgn _name 10 "W" * lo)%Q
        else if fixlen =? 5 then
          if negb (char_in _name 0 "H" && py_isdigit (py_slice _name 1 5))
          then Err (UnnamedFormatError _name) else
          la ← py_float (py_slice _name 1 3);
          lo ← py_float (py_slice _name 3 5);
          Ok (1 * (la + (1 # 2)), -1 * lo)%Q
        else if fixlen =? 7 then
          if negb (char_in _name 2 "NS" && char_in _name 6 "EW"
                   && py_isdigit (py_slice _name 0 2)
                   && py_isdigit (py_slice _name 3 6))
          then Err (UnnamedFormatError _name) else
          la ← py_float (py_slice _name 0 2);
          lo ← py_float (py_slice _name 3 6);
          Ok (sgn _name 2 "S" * la, sgn _name 6 "W" * lo)%Q
        else Err (UnnamedFormatError _name).

Definition UnnamedWaypoint_init (_name : string) : result WayPoint :=
  ll ← decode_layout _name;
  let '(la, lo) := ll in
  if Qlt_bool la (-90) || Qlt_bool 90 la || Qlt_bool lo (-180) || Qlt_bool 180 lo
  then Err (UnnamedOutOfBounds _name)
  else Ok (mkWpt _name la lo "uWPT" "").

(* ------------------------------------------------------------------ *)
(** ** Distance, [getClosest] and [expandFPL]

    The geodesic distance [geod.Inverse(lat1, lon1, lat2, lon2)['s12']] of
    geographiclib is an external routine: a parameter of this section. *)

Section Expansion.

Variable geod_s12 : Q -> Q -> Q -> Q -> Q.

Definition distTo (self _wpt2 : WayPoint) : Q :=
  geod_s12 (lat self) (lon self) (lat _wpt2) (lon _wpt2).

(** [self.distTo(other)] where [other] may be [None]: reading [None.lat]
    raises [AttributeError]. *)
Definition distTo_opt (self : WayPoint) (_wpt2 : option Obj) : result Q :=
  match _wpt2 with
  | Some w => Ok (distTo self (obj w))
  | None => Err AttributeError
  end.

Definition getClosest (db : NavDB) (_name : string) (_close_wpt : option Obj)
  : result Obj :=
  wpt_pot ← match _wpts db !! _name with
            | Some l => Ok l
            | None => Err (ElementNotFoundError _name)
            end;
  if List.length wpt_pot =? 1 then py_get wpt_pot 0 else
  match _close_wpt with
  | None => Err (ElementAmbiguousError _name)
  | Some c =>
      let wpt_dst := map (fun w => distTo (obj w) (obj c)) wpt_pot in
      m ← py_min wpt_dst;
      match py_list_index Qeq_bool wpt_dst m with
      | Some i => py_get wpt_pot (Z.of_nat i)
      | None => Err ValueError
      end
  end.

(** The local variables of the resolution loop. *)
Record ExpState := mkExp {
  wpts : list Obj;
  last_wpt : option Obj;
  apts_found : nat
}.

Definition has_neighbours (fpl_sz i : nat) : bool := (1 <=? i) && (i + 1 <? fpl_sz).

(** [if wpt: wpts.append(wpt); last_wpt = wpt] *)
Definition push (st : ExpState) (wpt : option Obj) : ExpState :=
  match wpt with
  | Some w => mkExp (wpts st ++ [w]) (Some w) (apts_found st)
  | None => st
  end.

(** [self._wpts[k][0]] in the procedure branch (no handler). *)
Definition first_candidate (db : NavDB) (k : string) : result Obj :=
  l ← wpts_lookup db k; py_get l 0.

(** One iteration of [for i in range(fpl_sz)]. *)
Definition expand_step (db : NavDB) (fpl_arr : list string) (i : nat)
    (st : ExpState) : result ExpState :=
  let fpl_sz := List.length fpl_arr in
  let tok k := nth k fpl_arr "" in
  let elem := tok i in
  let elem_type := getFPLelemtype db elem in
  if bool_decide (elem_type = Some "awy") && has_neighbours fpl_sz i then
    let awy_start := tok (i - 1) in
    let awy_end := tok (i + 1) in
    let awy_name := tok i in
    awy ← match _awys db !! awy_name with
          | Some r => Ok r
          | None => Err (ElementNotFoundError awy_name)
          end;
    awy_wpts ← getWaypoints awy awy_start awy_end;
    last ← py_get awy_wpts (-1);
    Ok (mkExp (wpts st ++ tail awy_wpts) (Some last) (apts_found st))
  else if bool_decide (elem_type = Some "prc") && has_neighbours fpl_sz i then
    let pelem := getFPLelemtype db (tok (i - 1)) in
    let nelem := getFPLelemtype db (tok (i + 1)) in
    (* it's a SID *)
    wpt ← (if bool_decide (nelem = Some "fix")
               && bool_decide (pelem ∈ [Some "rwy"; Some "arp"]) then
             ref ← first_candidate db (py_slice (tok (i - 1)) 0 4);
             w ← getClosest db (tok (i + 1)) (Some ref);
             Ok (Some w)
           else Ok None);
    (* it's a STAR *)
    wpt ← (if bool_decide (pelem = Some "fix")
               && bool_decide (nelem ∈ [Some "rwy"; Some "arp"]) then
             ref ← first_candidate db (py_slice (tok (i + 1)) 0 4);
             w ← getClosest db (tok (i - 1)) (Some ref);
             Ok (if py_is w (last_wpt st) then None else Some w)
           else Ok wpt);
    Ok (push st wpt)
  else if bool_decide (elem_type = Some "apt") || bool_decide (elem_type = Some "rwy") then
    if apts_found st <? 2 then
      arp ← match _wpts db !! elem with
            | Some (a :: _) => Ok a
            | _ => Err (ElementNotFoundError elem)
            end;
      Ok (mkExp (wpts st ++ [arp]) (Some arp) (S (apts_found st)))
    else Ok st
  else if bool_decide (elem_type = Some "ufx") then
    u ← UnnamedWaypoint_init elem;
    let wpt := mkObj (OUnnamed i) u in
    d ← distTo_opt u (last_wpt st);
    Ok (push st (if Qlt_bool d (1 # 10) then None else Some wpt))
  else if bool_decide (elem_type = Some "fix") then
    wpt ← getClosest db elem (last_wpt st);
    Ok (push st (if py_is wpt (last_wpt st) then None else Some wpt))
  else Ok st.

Fixpoint expand_loop (db : NavDB) (fpl_arr : list string) (idx : list nat)
    (st : ExpState) : result ExpState :=
  match idx with
  | [] => Ok st
  | i :: idx' => st' ← expand_step db fpl_arr i st; expand_loop db fpl_arr idx' st'
  end.

(** The token check that opens [expandFPL]. *)
Definition illegal_token (elem : string) : bool :=
  negb (py_isalnum (py_remove (py_remove elem "/") ".")) || (1 <? py_count elem "/").

Fixpoint check_tokens (fpl_arr : list string) : result unit :=
  match fpl_arr with
  | [] => Ok tt
  | elem :: rest => if illegal_token elem then Err (IllegalCharacterError elem)
                    else check_tokens rest
  end.

(** [expandFPL]; [copy.copy] of each waypoint is its attribute values. *)
Definition expandFPL (db : NavDB) (_fpl : string) : result (list WayPoint) :=
  let fpl_arr := py_split _fpl in
  _ ← check_tokens fpl_arr;
  st ← expand_loop db fpl_arr (seq 0 (List.length fpl_arr)) (mkExp [] None 0);
  Ok (map obj (wpts st)).

End Expansion.

(* ------------------------------------------------------------------ *)
(** ** [NavDB._load]

    The file system maps a path to the lines of the file as [for l in f]
    yields them; [open] of a missing path raises [FileNotFoundError]. *)

Definition FileSystem := string -> option (list string).

Definition py_open (fs : FileSystem) (path : string) : result (list string) :=
  match fs path with Some ls => Ok ls | None => Err (FileNotFoundError path) end.

(** A comment line: the cycle header check shared by the five files. *)
Definition check_header (airac : option AIRACcycle) (l label : string)
  : result (option AIRACcycle) :=
  if py_contains (py_slice l 1 6) "AIRAC" then
    match airac with
    | None => a ← AIRACcycle_init l; Ok (Some a)
    | Some a0 =>
        a ← AIRACcycle_init l;
        if AIRACcycle_eq a a0 then Ok airac else Err (WrongAIRACcycleError label)
    end
  else Ok airac.

(** [wpts.setdefault(name, []).append(o)] *)
Definition setdefault_append (m : gmap string (list Obj)) (k : string) (o : Obj)
  : gmap string (list Obj) :=
  <[k := (default [] (m !! k) ++ [o])%list]> m.

(** State of the loader over the four point files: [self.airac], the local
    [wpts], [nold] and the number of objects created so far. *)
Record LState := mkLState {
  s_airac : option AIRACcycle;
  s_wpts : gmap string (list Obj);
  s_nold : nat;
  s_next : nat
}.

Fixpoint load_points (parse : string -> result (string * WayPoint)) (label : string)
    (ls : list string) (st : LState) : result LState :=
  match ls with
  | [] => Ok st
  | l :: ls' =>
      c ← py_index l 0;
      if Ascii.eqb c ";" then
        a ← check_header (s_airac st) l label;
        load_points parse label ls' (mkLState a (s_wpts st) (s_nold st) (s_next st))
      else
        nw ← parse l;
        let '(n, w) := nw in
        load_points parse label ls'
          (mkLState (s_airac st) (setdefault_append (s_wpts st) n (mkObj (OLoaded (s_next st)) w))
                    (S (s_nold st)) (S (s_next st)))
  end.

Definition navaid_line (l : string) : result (string * WayPoint) :=
  let n := py_rstrip (py_slice l 24 28) in
  la ← py_float (py_slice l 33 43);
  lo ← py_float (py_slice l 43 54);
  Ok (n, NavAid_init n la lo (py_rstrip (py_slice l 29 33)) (py_rstrip (py_slice l 0 24))).

Definition fix_line (l : string) : result (string * WayPoint) :=
  let n := py_rstrip (py_slice l 0 5) in
  la ← py_float (py_slice l 29 39);
  lo ← py_float (py_slice_from l 39);
  Ok (n, WayPoint_init n la lo).

Definition runway_line (l : string) : result (string * WayPoint) :=
  let n := py_strip (py_slice l 24 28 ++ "R" ++ py_slice l 28 31) in
  la ← py_float (py_slice l 39 49);
  lo ← py_float (py_slice l 49 60);
  Ok (n, Runway_init n la lo (py_strip (py_slice l 0 24))).

Definition airport_line (l : string) : result (string * WayPoint) :=
  let n := py_slice l 0 4 in
  la ← py_float (py_slice l 4 14);
  lo ← py_float (py_slice_from l 14);
  Ok (n, Airport_init n la lo "").

(** State of the loader over the airways file: [self.airac], [awys], the
    open route [cawy], [nold] and the object counter. *)
Record RState := mkRState {
  r_airac : option AIRACcycle;
  r_awys : gmap string Route;
  cawy : option Route;
  r_nold : nat;
  r_next : nat
}.

Fixpoint load_routes (ls : list string) (st : RState) : result RState :=
  match ls with
  | [] => Ok st
  | l :: ls' =>
      c ← py_index l 0;
      if Ascii.eqb c ";" then
        a ← check_header (r_airac st) l "wpNavRTE.txt";
        load_routes ls' (mkRState a (r_awys st) (cawy st) (r_nold st) (r_next st))
      else
        match py_split l with
        | [n; nr; wptname; lats; lons] =>
            (* create a current route if necessary *)
            let cur := match cawy st with Some r => r | None => Route_init n end in
            la ← py_float lats;
            lo ← py_float lons;
            let w := mkObj (OLoaded (r_next st)) (WayPoint_init wptname la lo) in
            if String.eqb (rname cur) n then
              load_routes ls' (mkRState (r_airac st) (r_awys st)
                                 (Some (addWaypoint cur w)) (r_nold st) (S (r_next st)))
            else
              (* new airway: flush the current route and open a new one *)
              load_routes ls' (mkRState (r_airac st) (<[rname cur := cur]> (r_awys st))
                                 (Some (addWaypoint (Route_init n) w))
                                 (S (r_nold st)) (S (r_next st)))
        | _ => Err ValueError
        end
  end.

(** The [else] clause of the [for] loop: flush the last airway, reading
    [cawy.name] even when no route was opened. *)
Definition flush_last (st : RState) : result (gmap string Route * nat) :=
  match cawy st with
  | Some r => Ok (<[rname r := r]> (r_awys st), S (r_nold st))
  | None => Err AttributeError
  end.

Definition _load (fs : FileSystem) (datadir : string) (airac0 : option AIRACcycle)
  : result NavDB :=
  f ← py_open fs (datadir ++ "/wpNavAID.txt");
  st ← load_points navaid_line "wpNavAID.txt" f (mkLState airac0 ∅ 0 0);
  let nonavaids := s_nold st in
  f ← py_open fs (datadir ++ "/wpNavFIX.txt");
  st ← load_points fix_line "wpNavFIX.txt" f (mkLState (s_airac st) (s_wpts st) 0 (s_next st));
  let nofixes := s_nold st in
  f ← py_open fs (datadir ++ "/wpNavAPT.txt");
  st ← load_points runway_line "wpNavFIX.txt" f (mkLState (s_airac st) (s_wpts st) 0 (s_next st));
  let norwys := s_nold st in
  f ← py_open fs (datadir ++ "/airports.dat");
  st ← load_points airport_line "airports.dat" f (mkLState (s_airac st) (s_wpts st) 0 (s_next st));
  let noarpts := s_nold st in
  f ← py_open fs (datadir ++ "/wpNavRTE.txt");
  rst ← load_routes f (mkRState (s_airac st) ∅ None 0 (s_next st));
  fl ← flush_last rst;
  let '(awys, noawys) := fl in
  Ok (mkNavDB (r_airac rst) awys (s_wpts st) nonavaids nofixes norwys noarpts noawys).

(** [NavDB(datadir)] and [reload(datadir)]: both start from [airac = None]. *)
Definition NavDB_init (fs : FileSystem) (datadir : string) : result NavDB :=
  _load fs datadir None.

(* ------------------------------------------------------------------ *)
(** ** Concrete inputs used by the examples below *)

(** A stand-in for the geodesic routine (squared planar distance in
    degrees), used only to run the expansion on concrete inputs whose
    result does not depend on distances. *)
Definition geod_planar (lat1 lon1 lat2 lon2 : Q) : Q :=
  ((lat2 - lat1) * (lat2 - lat1) + (lon2 - lon1) * (lon2 - lon1))%Q.

Definition db_empty : NavDB := mkNavDB None ∅ ∅ 0 0 0 0 0.

Definition newline : string := String "010"%char EmptyString.

(** A cycle header line: ["AIRAC"] at columns 1-5, the cycle number at
    15-18 and the two dates at 21-31 and 35-45. *)
Definition airac_header (c : string) : string :=
  ";AIRAC CYCLE   " ++ c ++ "  28/JAN/2021 - 24/FEB/2021" ++ newline.

(** A data directory whose navaid, fix, airport and airway files carry
    cycle 2101 and whose runway file [wpNavAPT.txt] carries cycle 2102. *)
Definition fs_apt_mismatch : FileSystem := fun p =>
  if String.eqb p "navdata/wpNavAID.txt" then Some [airac_header "2101"]
  else if String.eqb p "navdata/wpNavFIX.txt" then Some [airac_header "2101"]
  else if String.eqb p "navdata/wpNavAPT.txt" then Some [airac_header "2102"]
  else if String.eqb p "navdata/airports.dat" then Some [airac_header "2101"]
  else if String.eqb p "navdata/wpNavRTE.txt" then Some [airac_header "2101"]
  else None.

(** The same directory with the mismatch moved to [airports.dat]. *)
Definition fs_arp_mismatch : FileSystem := fun p =>
  if String.eqb p "navdata/wpNavAID.txt" then Some [airac_header "2101"]
  else if String.eqb p "navdata/wpNavFIX.txt" then Some [airac_header "2101"]
  else if String.eqb p "navdata/wpNavAPT.txt" then Some [airac_header "2101"]
  else if String.eqb p "navdata/airports.dat" then Some [airac_header "2102"]
  else if String.eqb p "navdata/wpNavRTE.txt" then Some [airac_header "2101"]
  else None.

(** A consistent directory whose airways file holds only its header. *)
Definition fs_no_airways : FileSystem := fun p =>
  if String.eqb p "navdata/wpNavAID.txt" then Some [airac_header "2101"]
  else if String.eqb p "navdata/wpNavFIX.txt" then Some [airac_header "2101"]
  else if String.eqb p "navdata/wpNavAPT.txt" then Some [airac_header "2101"]
  else if String.eqb p "navdata/airports.dat" then Some [airac_header "2101"]
  else if String.eqb p "navdata/wpNavRTE.txt" then Some [airac_header "2101"]
  else None.

(** The airway [A B C D] built by [addWaypoint]. *)
Definition wpt_obj (n : nat) (nm : string) : Obj :=
  mkObj (OLoaded n) (WayPoint_init nm (inject_Z (Z.of_nat n)) 0).

Definition route_ABCD : Route :=
  fold_left addWaypoint
    [wpt_obj 0 "A"; wpt_obj 1 "B"; wpt_obj 2 "C"; wpt_obj 3 "D"] (Route_init "UL9").

(** The indices the specification describes for [extractSegment]: from
    [entry] up to but excluding [exit], backward when [entry > exit]. *)
Definition half_open (entry exit : nat) : list nat :=
  if exit <? entry then map (fun k => entry - k) (seq 0 (entry - exit))
  else seq entry (exit - entry).

(** A database with airports EGLL and EGKK and two fixes named BOGNA, the
    first one far away. *)
Definition oEGLL : Obj := mkObj (OLoaded 0) (Airport_init "EGLL" 51.4775 (-0.4614) "").
Definition oEGKK : Obj := mkObj (OLoaded 1) (Airport_init "EGKK" 51.1481 (-0.1903) "").
Definition oBOGNA_far : Obj := mkObj (OLoaded 2) (WayPoint_init "BOGNA" 10 10).
Definition oBOGNA : Obj := mkObj (OLoaded 3) (WayPoint_init "BOGNA" 50.9 (-0.45)).

Definition db_london : NavDB :=
  mkNavDB None ∅
    (<["EGLL" := [oEGLL]]> (<["EGKK" := [oEGKK]]> {["BOGNA" := [oBOGNA_far; oBOGNA]]}))
    0 2 0 2 0.

(** The point map of a loaded database: every candidate is filed under its
    own name, and distinct Python objects have distinct identities. *)
Definition wpts_wf (db : NavDB) : Prop :=
  (forall k l o, _wpts db !! k = Some l -> In o l -> name (obj o) = k)
  /\ (forall k1 k2 l1 l2 o1 o2, _wpts db !! k1 = Some l1 -> _wpts db !! k2 = Some l2 ->
        In o1 l1 -> In o2 l2 -> oid o1 = oid o2 -> o1 = o2).

(** A comment (or header) line of a data file. *)
Definition comment_line (l : string) : Prop := exists rest, l = String ";" rest.

(** A small consistent data directory: one navaid, one fix, one runway,
    one airport and a two-point airway. *)
Definition small_aid : list string :=
  [airac_header "2101";
   "LONDON VOR              LON  VOR   51.48700   -0.46600" ++ newline].

Definition small_fix : list string :=
  [airac_header "2101";
   "BOGNA                          50.90000  -0.45000" ++ newline].

Definition small_apt : list string :=
  [airac_header "2101";
   "HEATHROW                EGLL27L          51.47750   -0.48500" ++ newline].

Definition small_arp : list string :=
  [airac_header "2101"; "EGLL  51.47750  -0.46140" ++ newline].

Definition small_rte : list string :=
  [airac_header "2101"; "UL9 1 BOGNA 50.9 -0.45" ++ newline;
   "UL9 2 LON 51.487 -0.466" ++ newline].

Definition fs_small : FileSystem := fun p =>
  if String.eqb p "navdata/wpNavAID.txt" then Some small_aid
  else if String.eqb p "navdata/wpNavFIX.txt" then Some small_fix
  else if String.eqb p "navdata/wpNavAPT.txt" then Some small_apt
  else if String.eqb p "navdata/airports.dat" then Some small_arp
  else if String.eqb p "navdata/wpNavRTE.txt" then Some small_rte
  else None.

(** The database loaded from [fs_small]. *)
Definition db_small : NavDB :=
  match _load fs_small "navdata" None with Ok d => d | Err _ => db_empty end.

(** Its airway [UL9]. *)
Definition r_small : Route :=
  match _awys db_small !! "UL9" with Some r => r | None => Route_init "" end.

(* ================================================================== *)
(** The token shape the spec describes for the check of [expandFPL]:
    only alphanumerics, [.] and [/], at most one [/] and at most one [.]. *)
Definition spec_shape (t : string) : bool :=
  forallb (fun c => py_isalnum_char c || Ascii.eqb c "."%char || Ascii.eqb c "/"%char)
          (chars t)
  && (py_count t "/" <=? 1) && (py_count t "." <=? 1).

(** The token shape the check of [expandFPL] accepts: only alphanumerics,
    [.] and [/], at most one [/], and at least one alphanumeric. *)
Definition allowed_shape (t : string) : bool :=
  forallb (fun c => py_isalnum_char c || Ascii.eqb c "."%char || Ascii.eqb c "/"%char)
          (chars t)
  && (py_count t "/" <=? 1) && existsb py_isalnum_char (chars t).

(** A computation that does not raise [IllegalCharacterError]. *)
Definition noIC {A} (r : result A) : Prop :=
  forall t, r <> Err (IllegalCharacterError t).

(** A data line of a point or airway file: one that does not start with
    [;]. *)
Definition is_data_line (l : string) : bool :=
  match l with String c _ => negb (Ascii.eqb c ";"%char) | EmptyString => true end.

Definition count_data (ls : list string) : nat :=
  List.length (List.filter is_data_line ls).

(** The invariant of the point map while loading: every candidate is filed
    under its own name and was created before the counter [next], and no
    two distinct candidates share an identity. *)
Definition pts_inv (m : gmap string (list Obj)) (next : nat) : Prop :=
  (forall k l o, m !! k = Some l -> In o l ->
     name (obj o) = k /\ exists n, oid o = OLoaded n /\ n < next)
  /\ (forall k1 k2 l1 l2 o1 o2, m !! k1 = Some l1 -> m !! k2 = Some l2 ->
        In o1 l1 -> In o2 l2 -> oid o1 = oid o2 -> o1 = o2).

(** A route as the airway loader builds it: at least one point, and the
    name list mirrors the points. *)
Definition route_ok (r : Route) : Prop :=
  r_wpts r <> [] /\ r_wptnames r = map (fun w => name (obj w)) (r_wpts r).

(** A point of the database: a candidate of the point map or a point of
    an airway. *)
Definition from_db (db : NavDB) (w : WayPoint) : Prop :=
  (exists k l o, _wpts db !! k = Some l /\ In o l /\ w = obj o)
  \/ (exists k r o, _awys db !! k = Some r /\ In o (r_wpts r) /\ w = obj o).

(** ** Azimuths of a leg

    [geod.Inverse(lat1, lon1, lat2, lon2)] is left abstract: only the three
    fields read by [WayPoint] are kept. *)

Record GeodInverse := mkGeodInverse {
  g_s12 : Q;
  g_azi1 : Q;
  g_azi2 : Q
}.

Section Azimuths.

Variable geod_Inverse : Q -> Q -> Q -> Q -> GeodInverse.

(** [if az < 0.: az += 360.] *)
Definition wrap_azimuth (az : Q) : Q := if Qlt_bool az 0 then (az + 360)%Q else az.

Definition distTrackTo (self _wpt2 : WayPoint) : Q * Q :=
  let g := geod_Inverse (lat self) (lon self) (lat _wpt2) (lon _wpt2) in
  let az1 := wrap_azimuth (g_azi1 g) in
  let az2 := wrap_azimuth (g_azi2 g) in
  (g_s12 g, (az1 + az2) / 2)%Q.

Definition distAzimuthsTo (self _wpt2 : WayPoint) : Q * Q * Q :=
  let g := geod_Inverse (lat self) (lon self) (lat _wpt2) (lon _wpt2) in
  let az1 := wrap_azimuth (g_azi1 g) in
  let az2 := wrap_azimuth (g_azi2 g) in
  (g_s12 g, az1, az2).

End Azimuths.

(** A stand-in for [geod.Inverse] returning a fixed result. *)
Definition geod_fixed : Q -> Q -> Q -> Q -> GeodInverse :=
  fun _ _ _ _ => mkGeodInverse 1000 (-10) 170.

(** A cycle header line: a comment line with ["AIRAC"] in columns 1-5. *)
Definition is_cycle_header (l : string) : bool :=
  match String.get 0 l with
  | Some c => Ascii.eqb c ";" && py_contains (py_slice l 1 6) "AIRAC"
  | None => false
  end.

(** The header [l] parses and carries the cycle number of [ao]. *)
Definition header_agrees (ao : option AIRACcycle) (l : string) : Prop :=
  exists a a', AIRACcycle_init l = Ok a /\ ao = Some a' /\ cycle a = cycle a'.

(** The two counting rules of [getFPLelemtype] that answer ["ufx"]. *)
Definition ufx_rule1 (t : string) : bool :=
  let no_dig := count_if py_isdigit_char t in
  let no_dir := py_count t "N" + py_count t "S" + py_count t "W" + py_count t "E" in
  (no_dir =? 2) && existsb (Nat.eqb (String.length t)) [7; 11; 12; 15; 16] && (5 <=? no_dig).

Definition ufx_rule2 (t : string) : bool :=
  (String.length t =? 5) && char_at_is t 0 "H" && (count_if py_isdigit_char t =? 4).

(** * Properties *)

Lemma bind_Ok {A B} (a : A) (f : A -> result B) : (Ok a ≫= f) = f a.
Proof. reflexivity. Qed.

Lemma bind_Err {A B} (e : PyErr) (f : A -> result B) : (Err e ≫= f) = Err e.
Proof. reflexivity. Qed.

(** ** The coordinate decoder *)

(** C7: decoding ["N1234.5/E16759.9"] gives latitude 12.575 and longitude
    about 167.9983 (exactly 167 + 59.9/60); ["H0123"] gives latitude 1.5
    and longitude -23.0; ["95N200E"] raises [UnnamedOutOfBounds]. *)
Theorem unnamed_decoder_examples :
  (exists w, UnnamedWaypoint_init "N1234.5/E16759.9" = Ok w
             /\ lat w == 12.575 /\ lon w == 100799 # 600
             /\ Qabs (lon w - 167.9983) < 1 # 10000)%Q
  /\ (exists w, UnnamedWaypoint_init "H0123" = Ok w
                /\ lat w == 1.5 /\ lon w == -23)%Q
  /\ UnnamedWaypoint_init "95N200E" = Err (UnnamedOutOfBounds "95N200E").
Proof.
  split; [|split].
  - eexists; split; [vm_compute; reflexivity|].
    vm_compute; repeat split; reflexivity.
  - eexists; split; [vm_compute; reflexivity|].
    vm_compute; split; reflexivity.
  - vm_compute; reflexivity.
Qed.

(** ** The cycle guard of the loader *)

(** C8: a runway file [wpNavAPT.txt] whose cycle disagrees with the one
    recorded from the earlier files makes the load raise
    [WrongAIRACcycleError] naming ["wpNavFIX.txt"], not the runway file. *)
Theorem load_apt_mismatch_names_fix_file :
  NavDB_init fs_apt_mismatch "navdata" = Err (WrongAIRACcycleError "wpNavFIX.txt").
Proof. vm_compute. reflexivity. Qed.

(** The sibling path: a mismatch in [airports.dat] names that file. *)
Lemma load_arp_mismatch_names_airports :
  NavDB_init fs_arp_mismatch "navdata" = Err (WrongAIRACcycleError "airports.dat").
Proof. vm_compute. reflexivity. Qed.

(** ** The token classifier *)

(** C4: the token ["NAT1"] (length 4, prefix ["NAT"], non-alphabetic fourth
    character) gets no role at all: [getFPLelemtype] falls off the end of
    the NAT branch and returns [None], whatever the database. *)
Theorem classify_NAT1_none (db : NavDB) : getFPLelemtype db "NAT1" = None.
Proof. reflexivity. Qed.

Lemma alpha_not_digit (c : ascii) :
  py_isalpha_char c = true -> py_isdigit_char c = false.
Proof. destruct c as [[] [] [] [] [] [] [] []]; vm_compute; congruence. Qed.

Lemma count_if_zero (p : ascii -> bool) (s : string) :
  forallb (fun c => negb (p c)) (chars s) = true -> count_if p s = 0.
Proof.
  unfold count_if. induction (chars s) as [|c l IH]; simpl; [reflexivity|].
  intros H. apply andb_prop in H as [H1 H2].
  destruct (p c); simpl in *; [discriminate|auto].
Qed.

Lemma contains_NAT_len3 (t : string) :
  String.length t = 3 -> py_contains t "NAT" = true -> t = "NAT".
Proof.
  intros Hl. unfold py_contains.
  destruct (String.index 0 "NAT" t) as [m|] eqn:E; [|discriminate]. intros _.
  apply index_correct1 in E. simpl in E.
  destruct t as [|a [|b [|c [|d t]]]]; try discriminate Hl.
  destruct m as [|[|[|[|m]]]]; simpl in E; try discriminate E; exact E.
Qed.

(** C5, as stated, fails: ["NATA"] is a 4-character all-alphabetic token
    with no digit, and the NAT-track rule, which comes before the airport
    rule, classifies it as ["nat"]. *)
Theorem classify_NATA_not_airport :
  getFPLelemtype db_empty "NATA" = Some "nat".
Proof. reflexivity. Qed.

(** A 4-character all-alphabetic token whose first three characters are
    not ["NAT"] classifies as an airport, whatever the database holds. *)
Lemma classify_four_alpha_airport (db : NavDB) (s : string)
    (Hlen : String.length s = 4) (Halpha : py_isalpha s = true)
    (Hnat : py_slice s 0 3 <> "NAT") :
  getFPLelemtype db s = Some "apt".
Proof.
  destruct (String.eqb_spec s "DCT") as [->|Hd]; [discriminate Hlen|].
  assert (Hdig : count_if py_isdigit_char s = 0).
  { apply count_if_zero. unfold py_isalpha in Halpha.
    apply andb_prop in Halpha as [_ Ha].
    apply forallb_forall. intros c Hc.
    rewrite (alpha_not_digit c); [reflexivity|].
    exact (proj1 (forallb_forall _ _) Ha c Hc). }
  assert (Hc3 : py_contains (py_slice s 0 3) "NAT" = false).
  { destruct (py_contains (py_slice s 0 3) "NAT") eqn:E; [|reflexivity].
    exfalso. apply Hnat, contains_NAT_len3; [|exact E].
    destruct s as [|a [|b [|c [|d t]]]]; try discriminate Hlen; reflexivity. }
  unfold getFPLelemtype. cbv zeta.
  rewrite (proj2 (String.eqb_neq _ _) Hd), Hlen, Hdig, Hc3.
  rewrite !andb_false_r. reflexivity.
Qed.

(** C5 (amended): every 4-character all-alphabetic token classifies as an
    airport, whatever the database holds, unless its first three characters
    are ["NAT"], in which case it is a NAT track: the NAT-track rule
    precedes the airport rule, which precedes the airway and point-name
    rules. *)
Theorem classify_four_alpha (db : NavDB) (s : string)
    (Hlen : String.length s = 4) (Halpha : py_isalpha s = true) :
  getFPLelemtype db s
  = Some (if String.eqb (py_slice s 0 3) "NAT" then "nat" else "apt").
Proof.
  destruct (String.eqb (py_slice s 0 3) "NAT") eqn:E.
  - apply String.eqb_eq in E.
    destruct s as [|a [|b [|c [|d [|e t]]]]]; try discriminate Hlen.
    cbn in E. injection E as -> -> ->.
    assert (Hd : py_isalpha_char d = true).
    { cbn in Halpha. rewrite !andb_true_iff in Halpha. tauto. }
    unfold getFPLelemtype. cbv zeta.
    cbn -[py_isalpha_char py_isdigit_char Ascii.eqb].
    rewrite !andb_false_r. cbn -[py_isalpha_char py_isdigit_char Ascii.eqb].
    rewrite Hd. reflexivity.
  - apply classify_four_alpha_airport; [exact Hlen|exact Halpha|].
    intros H. rewrite H in E. discriminate E.
Qed.

Lemma classify_four_alpha_witness :
  (String.length "EGLL" = 4 /\ py_isalpha "EGLL" = true
   /\ getFPLelemtype
        (mkNavDB None ∅ {[ "EGLL" := [mkObj (OLoaded 0) (WayPoint_init "EGLL" 51 0)] ]}
                 0 0 0 0 0) "EGLL" = Some "apt")
  /\ (String.length "NATA" = 4 /\ py_isalpha "NATA" = true
      /\ getFPLelemtype db_london "NATA" = Some "nat").
Proof.
  split; (split; [reflexivity|split; [reflexivity|]]).
  - exact (classify_four_alpha _ "EGLL" eq_refl eq_refl).
  - exact (classify_four_alpha db_london "NATA" eq_refl eq_refl).
Defined.

(** ** Airway segments *)

Lemma range_up (n i : nat) :
  range_aux n (Z.of_nat i) (Z.of_nat (i + n)) 1 = map Z.of_nat (seq i n).
Proof.
  revert i. induction n as [|n IH]; intros i; [reflexivity|].
  cbn [range_aux seq map].
  replace ((0 <? 1)%Z && (Z.of_nat i <? Z.of_nat (i + S n))%Z) with true
    by (symmetry; apply andb_true_intro; split; apply Z.ltb_lt; lia).
  cbn [orb]. f_equal.
  replace (Z.of_nat i + 1)%Z with (Z.of_nat (S i)) by lia.
  replace (i + S n) with (S i + n) by lia. apply IH.
Qed.

Lemma range_down (n i : nat) :
  range_aux n (Z.of_nat (i + n)) (Z.of_nat i) (-1)
  = map (fun k => Z.of_nat (i + n - k)) (seq 0 n).
Proof.
  revert i. induction n as [|n IH]; intros i; [reflexivity|].
  cbn [range_aux seq map].
  replace ((-1 <? 0)%Z && (Z.of_nat i <? Z.of_nat (i + S n))%Z) with true
    by (symmetry; apply andb_true_intro; split; apply Z.ltb_lt; lia).
  rewrite orb_true_r. f_equal; [f_equal; lia|].
  replace (Z.of_nat (i + S n) + -1)%Z with (Z.of_nat (i + n)) by lia.
  rewrite IH, <- seq_shift, map_map. apply map_ext. intros k. f_equal. lia.
Qed.

Lemma py_list_index_lt {A} (eqb : A -> A -> bool) (l : list A) (x : A) (i : nat) :
  py_list_index eqb l x = Some i -> i < List.length l.
Proof.
  revert i. induction l as [|y l IH]; intros i; simpl; [discriminate|].
  destruct (eqb y x); [intros [= <-]; lia|].
  destruct (py_list_index eqb l x) as [j|] eqn:E; simpl; [|discriminate].
  intros [= <-]. specialize (IH j eq_refl). lia.
Qed.

Lemma py_get_nat {A} (l : list A) (i : nat) (a : A) :
  nth_error l i = Some a -> py_get l (Z.of_nat i) = Ok a.
Proof.
  intros H. unfold py_get.
  replace (Z.of_nat i <? 0)%Z with false by (symmetry; apply Z.ltb_ge; lia).
  replace (Z.of_nat i <? 0)%Z with false by (symmetry; apply Z.ltb_ge; lia).
  rewrite Nat2Z.id, H. reflexivity.
Qed.

Lemma mapM_py_get {A} (l : list A) (idx : list nat) :
  Forall (fun i => i < List.length l) idx ->
  exists ws, mapM (py_get l) (map Z.of_nat idx) = Ok ws
             /\ map Some ws = map (nth_error l) idx.
Proof.
  induction idx as [|i idx IH]; intros Hf; [exists []; split; reflexivity|].
  inversion Hf as [|? ? Hi Hrest]; subst.
  destruct (IH Hrest) as [ws [Hm Hws]].
  destruct (nth_error l i) as [a|] eqn:Ea;
    [|apply nth_error_None in Ea; lia].
  exists (a :: ws). cbn [map]. rewrite <- Ea, Hws. split; [|reflexivity].
  change (mapM (py_get l) (Z.of_nat i :: map Z.of_nat idx))
    with (y ← py_get l (Z.of_nat i); k ← mapM (py_get l) (map Z.of_nat idx); mret (y :: k)).
  rewrite (py_get_nat l i a Ea), Hm. reflexivity.
Qed.

(** C3: on a route whose waypoint and name lists are aligned, when both
    names are on the route (at first indices [ei] and [xi], as
    [list.index] finds them), [getWaypoints] returns the waypoints at the
    indices from [ei] up to but excluding [xi], backward when [ei > xi]
    and forward otherwise (nothing when [ei = xi]). *)
Theorem getWaypoints_half_open (r : Route) (entry exit : string) (ei xi : nat)
    (Hal : List.length (r_wptnames r) = List.length (r_wpts r))
    (He : py_list_index String.eqb (r_wptnames r) entry = Some ei)
    (Hx : py_list_index String.eqb (r_wptnames r) exit = Some xi) :
  exists ws, getWaypoints r entry exit = Ok ws
             /\ map Some ws = map (nth_error (r_wpts r)) (half_open ei xi).
Proof.
  pose proof (py_list_index_lt _ _ _ _ He) as Hei.
  pose proof (py_list_index_lt _ _ _ _ Hx) as Hxi.
  rewrite Hal in Hei, Hxi.
  unfold getWaypoints. rewrite He, Hx. cbn [mbind result_bind].
  unfold half_open, py_range.
  destruct (xi <? ei) eqn:Hlt.
  - apply Nat.ltb_lt in Hlt.
    replace (Z.of_nat xi <? Z.of_nat ei)%Z with true by (symmetry; apply Z.ltb_lt; lia).
    cbn [Z.eqb]. cbn [mbind result_bind].
    replace (Z.to_nat (Z.abs (Z.of_nat xi - Z.of_nat ei))) with (ei - xi) by lia.
    replace (Z.of_nat ei) with (Z.of_nat (xi + (ei - xi))) by lia.
    rewrite range_down.
    replace (map (fun k => Z.of_nat (xi + (ei - xi) - k)) (seq 0 (ei - xi)))
      with (map Z.of_nat (map (fun k => ei - k) (seq 0 (ei - xi))))
      by (rewrite map_map; apply map_ext; intros; f_equal; lia).
    apply mapM_py_get. apply List.Forall_forall. intros i Hi.
    apply in_map_iff in Hi as [k [<- _]]. lia.
  - apply Nat.ltb_ge in Hlt.
    replace (Z.of_nat xi <? Z.of_nat ei)%Z with false by (symmetry; apply Z.ltb_ge; lia).
    cbn [Z.eqb]. cbn [mbind result_bind].
    replace (Z.to_nat (Z.abs (Z.of_nat xi - Z.of_nat ei))) with (xi - ei) by lia.
    assert (Hr : range_aux (xi - ei) (Z.of_nat ei) (Z.of_nat xi) 1
                 = map Z.of_nat (seq ei (xi - ei)))
      by (rewrite <- range_up; do 2 f_equal; lia).
    rewrite Hr.
    apply mapM_py_get. apply List.Forall_forall. intros i Hi.
    apply in_seq in Hi. lia.
Qed.

Lemma getWaypoints_half_open_witness :
  List.length (r_wptnames route_ABCD) = List.length (r_wpts route_ABCD)
  /\ py_list_index String.eqb (r_wptnames route_ABCD) "D" = Some 3
  /\ py_list_index String.eqb (r_wptnames route_ABCD) "A" = Some 0
  /\ exists ws, getWaypoints route_ABCD "D" "A" = Ok ws
                /\ map Some ws = map (nth_error (r_wpts route_ABCD)) (half_open 3 0).
Proof.
  split; [reflexivity|split; [reflexivity|split; [reflexivity|]]].
  apply getWaypoints_half_open; reflexivity.
Defined.

(** The examples of the specification on the route [A B C D]. *)
Lemma route_ABCD_forward :
  getWaypoints route_ABCD "A" "D" = Ok [wpt_obj 0 "A"; wpt_obj 1 "B"; wpt_obj 2 "C"].
Proof. reflexivity. Qed.

Lemma route_ABCD_backward :
  getWaypoints route_ABCD "D" "A" = Ok [wpt_obj 3 "D"; wpt_obj 2 "C"; wpt_obj 1 "B"].
Proof. reflexivity. Qed.

Lemma route_ABCD_same :
  getWaypoints route_ABCD "B" "B" = Ok [].
Proof. reflexivity. Qed.

(** ** Nearest candidate *)

Definition min_step (cur y : Q) : Q := if Qlt_bool y cur then y else cur.

Lemma fold_min_in (l : list Q) (x : Q) : In (fold_left min_step l x) (x :: l).
Proof.
  revert x. induction l as [|y l IH]; intros x; simpl; [auto|].
  specialize (IH (min_step x y)). unfold min_step in *.
  destruct (Qlt_bool y x); simpl in IH; intuition.
Qed.

Lemma fold_min_le (l : list Q) (x : Q) :
  forall y, In y (x :: l) -> (fold_left min_step l x <= y)%Q.
Proof.
  revert x. induction l as [|z l IH]; intros x y Hy; simpl in *.
  - destruct Hy as [<-|[]]. apply Qle_refl.
  - unfold min_step at 2. unfold Qlt_bool.
    destruct (Qle_bool x z) eqn:E; simpl.
    + apply Qle_bool_iff in E.
      destruct Hy as [<-|[<-|Hy]].
      * apply IH; simpl; auto.
      * eapply Qle_trans; [apply IH; simpl; auto|exact E].
      * apply IH; simpl; auto.
    + assert (Hzx : (z < x)%Q).
      { apply Qnot_le_lt. intros Hle. apply Qle_bool_iff in Hle. congruence. }
      destruct Hy as [<-|[<-|Hy]].
      * eapply Qle_trans; [apply IH; simpl; auto|]. apply Qlt_le_weak, Hzx.
      * apply IH; simpl; auto.
      * apply IH; simpl; auto.
Qed.

Lemma py_list_index_first (d : list Q) (m : Q) :
  In m d ->
  exists k dk, py_list_index Qeq_bool d m = Some k /\ nth_error d k = Some dk
               /\ (dk == m)%Q
               /\ forall j dj, j < k -> nth_error d j = Some dj -> ~ (dj == m)%Q.
Proof.
  induction d as [|x d IH]; intros Hin; [destruct Hin|].
  simpl. destruct (Qeq_bool x m) eqn:E.
  - exists 0, x. split; [reflexivity|split; [reflexivity|split]].
    + apply Qeq_bool_iff, E.
    + intros j dj Hj. lia.
  - assert (Hd : In m d).
    { destruct Hin as [<-|Hin]; [|exact Hin].
      exfalso. assert (Heq : Qeq_bool x x = true) by (apply Qeq_bool_iff; reflexivity).
      congruence. }
    destruct (IH Hd) as [k [dk [Hk [Hnth [Hdk Hfirst]]]]].
    exists (S k), dk. rewrite Hk. split; [reflexivity|split; [exact Hnth|split; [exact Hdk|]]].
    intros [|j] dj Hj Hjn; simpl in Hjn.
    + injection Hjn as <-. intros Hq. apply Qeq_bool_iff in Hq. congruence.
    + apply (Hfirst j dj); [lia|exact Hjn].
Qed.

(** C2: when a name has two or more candidates and a reference point is
    given, [getClosest] returns the candidate at the first index [k] whose
    distance to the reference is minimal: no candidate is nearer, and every
    candidate before index [k] is strictly farther. *)
Theorem getClosest_nearest_first (geod_s12 : Q -> Q -> Q -> Q -> Q) (db : NavDB)
    (nm : string) (l : list Obj) (c : Obj)
    (Hl : _wpts db !! nm = Some l) (Hlen : 2 <= List.length l) :
  exists k w, nth_error l k = Some w
    /\ getClosest geod_s12 db nm (Some c) = Ok w
    /\ (forall j w', nth_error l j = Some w' ->
          (distTo geod_s12 (obj w) (obj c) <= distTo geod_s12 (obj w') (obj c))%Q)
    /\ (forall j w', j < k -> nth_error l j = Some w' ->
          (distTo geod_s12 (obj w) (obj c) < distTo geod_s12 (obj w') (obj c))%Q).
Proof.
  set (dist := fun w : Obj => distTo geod_s12 (obj w) (obj c)).
  set (d := map dist l).
  destruct l as [|x0 l0]; [simpl in Hlen; lia|].
  set (m := fold_left min_step (map dist l0) (dist x0)).
  assert (Hmin : py_min d = Ok m) by reflexivity.
  assert (Hin : In m d) by apply fold_min_in.
  assert (Hle : forall y, In y d -> (m <= y)%Q) by apply fold_min_le.
  destruct (py_list_index_first d m Hin) as [k [dk [Hk [Hnth [Hdk Hfirst]]]]].
  unfold d in Hnth. rewrite nth_error_map in Hnth.
  destruct (nth_error (x0 :: l0) k) as [w|] eqn:Ew; [|discriminate].
  injection Hnth as Hdw.
  exists k, w. split; [exact Ew|split; [|split]].
  - unfold getClosest. rewrite Hl. cbn [mbind result_bind].
    replace (List.length (x0 :: l0) =? 1) with false
      by (symmetry; apply Nat.eqb_neq; lia).
    fold dist. fold d. rewrite Hmin. cbn [mbind result_bind].
    rewrite Hk. apply py_get_nat, Ew.
  - intros j w' Hj. fold (dist w) (dist w').
    rewrite Hdw, Hdk. apply Hle. unfold d.
    apply in_map, (nth_error_In _ j Hj).
  - intros j w' Hjk Hj. fold (dist w) (dist w').
    rewrite Hdw, Hdk.
    assert (Hne : ~ (dist w' == m)%Q).
    { apply (Hfirst j). exact Hjk. unfold d. rewrite nth_error_map, Hj. reflexivity. }
    assert (Hm : (m <= dist w')%Q).
    { apply Hle. unfold d. apply in_map, (nth_error_In _ j Hj). }
    apply Qle_lteq in Hm as [Hlt|Heq]; [exact Hlt|].
    exfalso. apply Hne. symmetry. exact Heq.
Qed.

Lemma getClosest_nearest_first_witness :
  _wpts db_london !! "BOGNA" = Some [oBOGNA_far; oBOGNA]
  /\ 2 <= List.length [oBOGNA_far; oBOGNA]
  /\ exists k w, nth_error [oBOGNA_far; oBOGNA] k = Some w
    /\ getClosest geod_planar db_london "BOGNA" (Some oEGLL) = Ok w
    /\ (forall j w', nth_error [oBOGNA_far; oBOGNA] j = Some w' ->
          (distTo geod_planar (obj w) (obj oEGLL)
           <= distTo geod_planar (obj w') (obj oEGLL))%Q)
    /\ (forall j w', j < k -> nth_error [oBOGNA_far; oBOGNA] j = Some w' ->
          (distTo geod_planar (obj w) (obj oEGLL)
           < distTo geod_planar (obj w') (obj oEGLL))%Q).
Proof.
  split; [reflexivity|split; [simpl; lia|]].
  apply getClosest_nearest_first; [reflexivity|simpl; lia].
Defined.

Lemma getClosest_in (geod_s12 : Q -> Q -> Q -> Q -> Q) (db : NavDB)
    (nm : string) (l : list Obj) (c : Obj) :
  _wpts db !! nm = Some l -> l <> [] ->
  exists w, In w l /\ getClosest geod_s12 db nm (Some c) = Ok w.
Proof.
  intros Hl Hne. unfold getClosest. rewrite Hl. cbn [mbind result_bind].
  destruct l as [|x0 l0]; [congruence|].
  destruct (List.length (x0 :: l0) =? 1) eqn:E1.
  - exists x0. split; [left; reflexivity|reflexivity].
  - set (d := map (fun w => distTo geod_s12 (obj w) (obj c)) (x0 :: l0)).
    set (m := fold_left min_step (map (fun w => distTo geod_s12 (obj w) (obj c)) l0)
                (distTo geod_s12 (obj x0) (obj c))).
    assert (Hmin : py_min d = Ok m) by reflexivity.
    assert (Hin : In m d) by apply fold_min_in.
    destruct (py_list_index_first d m Hin) as [k [dk [Hk [Hnth _]]]].
    unfold d in Hnth. rewrite nth_error_map in Hnth.
    destruct (nth_error (x0 :: l0) k) as [w|] eqn:Ew; [|discriminate].
    exists w. split; [apply (nth_error_In _ k Ew)|].
    fold d. rewrite Hmin. cbn [mbind result_bind]. rewrite Hk. apply py_get_nat, Ew.
Qed.

(** ** Expansion *)

Lemma split_EGLL_DCT_BOGNA_EGKK :
  py_split "EGLL DCT BOGNA EGKK" = ["EGLL"; "DCT"; "BOGNA"; "EGKK"].
Proof. reflexivity. Qed.

(** C1: against a database whose point map files EGLL, EGKK and BOGNA
    (BOGNA with one or more candidates), [expandFPL "EGLL DCT BOGNA EGKK"]
    returns exactly three waypoints, the first candidates of EGLL and of
    EGKK around one BOGNA candidate; DCT contributes none. *)
Theorem expand_EGLL_DCT_BOGNA_EGKK (geod_s12 : Q -> Q -> Q -> Q -> Q) (db : NavDB)
    (a b : Obj) (la lb lB : list Obj) (Hwf : wpts_wf db)
    (HA : _wpts db !! "EGLL" = Some (a :: la))
    (HK : _wpts db !! "EGKK" = Some (b :: lb))
    (HB : _wpts db !! "BOGNA" = Some lB) (HBne : lB <> []) :
  exists w, In w lB
    /\ expandFPL geod_s12 db "EGLL DCT BOGNA EGKK" = Ok [obj a; obj w; obj b]
    /\ map name [obj a; obj w; obj b] = ["EGLL"; "BOGNA"; "EGKK"].
Proof.
  destruct Hwf as [Hname Hid].
  destruct (getClosest_in geod_s12 db "BOGNA" lB a HB HBne) as [w [Hw Hgc]].
  assert (Hnw : py_is w (Some a) = false).
  { unfold py_is. apply bool_decide_eq_false_2. intros Heq.
    assert (w = a) as ->
      by (apply (Hid _ _ _ _ w a HB HA Hw); [left; reflexivity|exact Heq]).
    pose proof (Hname _ _ _ HB Hw) as H1. pose proof (Hname _ _ _ HA (or_introl eq_refl)) as H2.
    rewrite H1 in H2. discriminate H2. }
  exists w. split; [exact Hw|split].
  - cbv -[getClosest lookup py_is _wpts _awys] in HA, HK.
    unfold expandFPL. rewrite split_EGLL_DCT_BOGNA_EGKK.
    cbv -[getClosest lookup py_is _wpts _awys]. rewrite HA.
    cbv -[getClosest lookup py_is _wpts _awys]. rewrite Hgc.
    cbv -[getClosest lookup py_is _wpts _awys]. rewrite Hnw.
    cbv -[getClosest lookup py_is _wpts _awys]. rewrite HK.
    reflexivity.
  - cbn [map]. rewrite (Hname _ _ _ HA (or_introl eq_refl)), (Hname _ _ _ HB Hw),
      (Hname _ _ _ HK (or_introl eq_refl)). reflexivity.
Qed.

Lemma db_london_lookup (k : string) (l : list Obj) :
  _wpts db_london !! k = Some l ->
  (k = "EGLL" /\ l = [oEGLL]) \/ (k = "EGKK" /\ l = [oEGKK])
  \/ (k = "BOGNA" /\ l = [oBOGNA_far; oBOGNA]).
Proof.
  unfold db_london. cbn [_wpts]. intros Hk.
  rewrite !lookup_insert, lookup_singleton in Hk.
  repeat case_decide; simplify_eq; auto.
Qed.

Lemma db_london_wf : wpts_wf db_london.
Proof.
  split.
  - intros k l o H Hin.
    destruct (db_london_lookup k l H) as [[-> ->]|[[-> ->]|[-> ->]]];
      simpl in Hin; intuition subst; reflexivity.
  - intros k1 k2 l1 l2 o1 o2 H1 H2 Hin1 Hin2 Hid.
    destruct (db_london_lookup k1 l1 H1) as [[_ ->]|[[_ ->]|[_ ->]]];
    destruct (db_london_lookup k2 l2 H2) as [[_ ->]|[[_ ->]|[_ ->]]];
    simpl in Hin1, Hin2; intuition subst; simpl in Hid; congruence.
Qed.

Lemma expand_EGLL_DCT_BOGNA_EGKK_witness :
  wpts_wf db_london
  /\ _wpts db_london !! "EGLL" = Some [oEGLL]
  /\ _wpts db_london !! "EGKK" = Some [oEGKK]
  /\ _wpts db_london !! "BOGNA" = Some [oBOGNA_far; oBOGNA]
  /\ [oBOGNA_far; oBOGNA] <> []
  /\ exists w, In w [oBOGNA_far; oBOGNA]
    /\ expandFPL geod_planar db_london "EGLL DCT BOGNA EGKK" = Ok [obj oEGLL; obj w; obj oEGKK]
    /\ map name [obj oEGLL; obj w; obj oEGKK] = ["EGLL"; "BOGNA"; "EGKK"].
Proof.
  split; [exact db_london_wf|].
  split; [reflexivity|split; [reflexivity|split; [reflexivity|split; [discriminate|]]]].
  apply (expand_EGLL_DCT_BOGNA_EGKK geod_planar db_london oEGLL oEGKK [] []
           [oBOGNA_far; oBOGNA]);
    [exact db_london_wf|reflexivity|reflexivity|reflexivity|discriminate].
Defined.

(** On [db_london] the expansion picks the BOGNA nearest to EGLL. *)
Lemma expand_london :
  expandFPL geod_planar db_london "EGLL DCT BOGNA EGKK"
  = Ok [obj oEGLL; obj oBOGNA; obj oEGKK].
Proof. vm_compute. reflexivity. Qed.

(** ** Loading an airways file without data lines *)

Lemma load_routes_comments (ls : list string) (st rst : RState) :
  Forall comment_line ls -> load_routes ls st = Ok rst -> cawy rst = cawy st.
Proof.
  revert st. induction ls as [|l ls IH]; intros st Hc Hl.
  - injection Hl as <-. reflexivity.
  - inversion Hc as [|? ? [rest ->] Hc']; subst.
    cbn [load_routes py_index String.get] in Hl. cbn [mbind result_bind Ascii.eqb] in Hl.
    change (Ascii.eqb ";" ";") with true in Hl. cbn iota in Hl.
    destruct (check_header (r_airac st) (String ";" rest) "wpNavRTE.txt") as [a|e];
      cbn [mbind result_bind] in Hl; [|discriminate Hl].
    rewrite (IH _ Hc' Hl). reflexivity.
Qed.

Ltac next_bind :=
  lazymatch goal with
  | |- context [@mbind result _ _ _ _ ?m] =>
      destruct m; cbn [mbind result_bind]; [|reflexivity]
  end.

(** C9: when the airways file holds no data line (only comment or header
    lines, or none at all), loading never completes: either an earlier
    step raises, or the final flush reads [cawy.name] with [cawy = None]
    and raises [AttributeError]; no database with an empty airway map is
    produced. *)
Theorem load_without_airway_lines_fails (fs : FileSystem) (datadir : string)
    (airac0 : option AIRACcycle) (ls : list string)
    (Hrte : fs (datadir ++ "/wpNavRTE.txt") = Some ls)
    (Hc : Forall comment_line ls) :
  is_err (_load fs datadir airac0) = true.
Proof.
  unfold _load. cbv zeta.
  do 8 next_bind.
  unfold py_open at 1. rewrite Hrte. cbn [mbind result_bind].
  destruct (load_routes ls _) as [rst|e] eqn:E; cbn [mbind result_bind]; [|reflexivity].
  apply load_routes_comments in E; [|exact Hc].
  unfold flush_last. rewrite E. reflexivity.
Qed.

Lemma load_without_airway_lines_fails_witness :
  fs_no_airways ("navdata" ++ "/wpNavRTE.txt") = Some [airac_header "2101"]
  /\ Forall comment_line [airac_header "2101"]
  /\ is_err (_load fs_no_airways "navdata" None) = true.
Proof.
  split; [reflexivity|split].
  - constructor; [eexists; reflexivity|constructor].
  - apply (load_without_airway_lines_fails fs_no_airways "navdata" None [airac_header "2101"]);
      [reflexivity|constructor; [eexists; reflexivity|constructor]].
Defined.

(** On that directory the error is the [AttributeError] of the flush. *)
Lemma load_no_airways_attribute_error :
  NavDB_init fs_no_airways "navdata" = Err AttributeError.
Proof. vm_compute. reflexivity. Qed.

(** ** An unnamed waypoint with no last-resolved waypoint *)

Lemma expand_step_ufx_no_last (geod_s12 : Q -> Q -> Q -> Q -> Q) (db : NavDB)
    (arr : list string) (i : nat) (ws : list Obj) (n : nat) :
  getFPLelemtype db (nth i arr "") = Some "ufx" ->
  exists e, expand_step geod_s12 db arr i (mkExp ws None n) = Err e
    /\ (e = AttributeError \/ UnnamedWaypoint_init (nth i arr "") = Err e).
Proof.
  intros H. unfold expand_step. cbv zeta beta. rewrite H.
  cbv -[UnnamedWaypoint_init nth has_neighbours getWaypoints getClosest
        first_candidate lookup _awys _wpts].
  destruct (UnnamedWaypoint_init (nth i arr "")) as [u|e].
  - exists AttributeError. split; [reflexivity|left; reflexivity].
  - exists e. split; [reflexivity|right; reflexivity].
Qed.

(** On the plan ["DCT N1234.5/E16759.9 EGLL"] the error is the
    [AttributeError] of [distTo(None)]. *)
Lemma expand_leading_unnamed_attribute_error :
  expandFPL geod_planar db_london "DCT N1234.5/E16759.9 EGLL" = Err AttributeError.
Proof. vm_compute. reflexivity. Qed.

(** ** The token check *)

Lemma alnum_dot : py_isalnum_char "."%char = false.
Proof. reflexivity. Qed.

Lemma alnum_slash : py_isalnum_char "/"%char = false.
Proof. reflexivity. Qed.

Lemma filter_shape (l : list ascii) :
  let l' := List.filter (fun d => negb (Ascii.eqb d "."%char))
              (List.filter (fun d => negb (Ascii.eqb d "/"%char)) l) in
  forallb py_isalnum_char l'
  = forallb (fun c => py_isalnum_char c || Ascii.eqb c "."%char
                      || Ascii.eqb c "/"%char) l
  /\ (match l' with [] => false | _ => true end && forallb py_isalnum_char l'
      = forallb (fun c => py_isalnum_char c || Ascii.eqb c "."%char
                          || Ascii.eqb c "/"%char) l
        && existsb py_isalnum_char l).
Proof.
  induction l as [|c l [IH1 IH2]]; cbn zeta in *; [split; reflexivity|].
  destruct (Ascii.eqb c "/"%char) eqn:Es.
  - apply Ascii.eqb_eq in Es. subst c. cbn. rewrite IH2, IH1. split; [reflexivity|].
    destruct (forallb _ l); reflexivity.
  - destruct (Ascii.eqb c "."%char) eqn:Ed.
    + apply Ascii.eqb_eq in Ed. subst c. cbn. rewrite IH2, IH1. split; [reflexivity|].
      destruct (forallb _ l); reflexivity.
    + cbn [List.filter negb]. rewrite Es. cbn [negb List.filter]. rewrite Ed.
      cbn [negb forallb existsb]. rewrite IH1, Es, Ed. rewrite !orb_false_r. split; [reflexivity|].
      destruct (py_isalnum_char c); cbn [andb orb]; [|reflexivity].
      rewrite andb_true_r. reflexivity.
Qed.

Lemma illegal_token_shape (t : string) :
  illegal_token t = negb (allowed_shape t).
Proof.
  unfold illegal_token, allowed_shape, py_isalnum, py_remove, chars.
  rewrite !list_ascii_of_string_of_list_ascii.
  destruct (filter_shape (list_ascii_of_string t)) as [_ H2]. cbn zeta in H2.
  set (l' := List.filter _ _) in *.
  assert (Hl : String.eqb (string_of_list_ascii l') "" = match l' with [] => true | _ => false end)
    by (destruct l'; reflexivity).
  rewrite Hl.
  assert (Hn : negb match l' with [] => true | _ => false end
               = match l' with [] => false | _ => true end) by (destruct l'; reflexivity).
  rewrite Hn, H2.
  rewrite Nat.ltb_antisym. clear H2 Hl Hn l'.
  destruct (forallb _ _), (existsb _ _), (py_count t "/"%char <=? 1); reflexivity.
Qed.

Lemma check_tokens_err (l : list string) (e : PyErr) :
  check_tokens l = Err e -> exists t, e = IllegalCharacterError t /\ In t l
                                      /\ allowed_shape t = false.
Proof.
  induction l as [|t l IH]; cbn; [discriminate|].
  destruct (illegal_token t) eqn:E.
  - intros H. injection H as <-. exists t. split; [reflexivity|split; [left; reflexivity|]].
    rewrite illegal_token_shape in E. destruct (allowed_shape t); [discriminate|reflexivity].
  - intros H. destruct (IH H) as (t' & -> & Hin & Hs). exists t'. auto.
Qed.

Lemma check_tokens_ok_or (l : list string) :
  check_tokens l = Ok tt \/ exists t, check_tokens l = Err (IllegalCharacterError t).
Proof.
  induction l as [|t l IH]; cbn; [left; reflexivity|].
  destruct (illegal_token t); [right; exists t; reflexivity|exact IH].
Qed.

Lemma check_tokens_complete (l : list string) (t : string) :
  In t l -> allowed_shape t = false -> exists t', check_tokens l = Err (IllegalCharacterError t').
Proof.
  induction l as [|u l IH]; cbn; [contradiction|].
  intros [->|Hin] Hs.
  - rewrite illegal_token_shape, Hs. exists t. reflexivity.
  - destruct (illegal_token u); [exists u; reflexivity|]. apply IH; assumption.
Qed.

Lemma noIC_Ok {A} (x : A) : noIC (Ok x).
Proof. intros t. discriminate. Qed.

Lemma noIC_bind {A B} (m : result A) (k : A -> result B) :
  noIC m -> (forall x, noIC (k x)) -> noIC (x ← m; k x).
Proof. intros Hm Hk t. destruct m as [x|e]; cbn; [apply Hk|intros E; injection E as ->; exact (Hm t eq_refl)]. Qed.

Create HintDb noic.

Ltac noIC_tac :=
  repeat match goal with
  | |- noIC _ => solve [eauto with noic]
  | |- noIC (mbind _ _) => apply noIC_bind; [|intros ?]
  | |- noIC (Ok _) => apply noIC_Ok
  | |- noIC (Err _) => let t := fresh "t" in intros t; discriminate
  | |- noIC (if ?b then _ else _) => destruct b
  | |- noIC (match ?x with _ => _ end) => destruct x
  end.

Lemma noIC_py_get {A} (l : list A) (i : Z) : noIC (py_get l i).
Proof. unfold py_get. cbv zeta. noIC_tac. Qed.

Lemma noIC_py_range (a b c : Z) : noIC (py_range a b c).
Proof. unfold py_range. noIC_tac. Qed.

Lemma noIC_py_float (s : string) : noIC (py_float s).
Proof.
  intros t. unfold py_float. repeat case_match; congruence.
Qed.

Lemma noIC_mapM_py_get {A} (l : list A) (idx : list Z) : noIC (mapM (py_get l) idx).
Proof.
  induction idx as [|i idx IH]; cbn; [apply noIC_Ok|].
  apply noIC_bind; [apply noIC_py_get|intros x].
  apply noIC_bind; [exact IH|intros y]. apply noIC_Ok.
Qed.

Hint Resolve noIC_Ok noIC_py_get noIC_py_range noIC_py_float noIC_mapM_py_get : noic.

Lemma noIC_py_min (l : list Q) : noIC (py_min l).
Proof. unfold py_min. noIC_tac. Qed.

Lemma noIC_deg_min (s : string) (a b c d : nat) : noIC (deg_min s a b c d).
Proof. unfold deg_min. noIC_tac. Qed.

Hint Resolve noIC_py_min noIC_deg_min : noic.

Lemma noIC_UnnamedWaypoint_init (s : string) : noIC (UnnamedWaypoint_init s).
Proof. unfold UnnamedWaypoint_init, decode_layout. cbv zeta. noIC_tac. Qed.

Lemma noIC_getWaypoints (r : Route) (a b : string) : noIC (getWaypoints r a b).
Proof. unfold getWaypoints. cbv zeta. noIC_tac. Qed.

Lemma noIC_getClosest g (db : NavDB) (k : string) (c : option Obj) :
  noIC (getClosest g db k c).
Proof. unfold getClosest. cbv zeta. noIC_tac. Qed.

Lemma noIC_first_candidate (db : NavDB) (k : string) : noIC (first_candidate db k).
Proof. unfold first_candidate, wpts_lookup. noIC_tac. Qed.

Lemma noIC_distTo_opt g (u : WayPoint) (c : option Obj) : noIC (distTo_opt g u c).
Proof. unfold distTo_opt. noIC_tac. Qed.

Hint Resolve noIC_UnnamedWaypoint_init noIC_getWaypoints noIC_getClosest
  noIC_first_candidate noIC_distTo_opt : noic.

Lemma noIC_expand_step g (db : NavDB) (arr : list string) (i : nat) (st : ExpState) :
  noIC (expand_step g db arr i st).
Proof. unfold expand_step. cbv zeta. noIC_tac. Qed.

Lemma noIC_expand_loop g (db : NavDB) (arr : list string) (idx : list nat) (st : ExpState) :
  noIC (expand_loop g db arr idx st).
Proof.
  revert st. induction idx as [|i idx IH]; intros st; cbn [expand_loop]; [apply noIC_Ok|].
  apply noIC_bind; [apply noIC_expand_step|intros st'; apply IH].
Qed.

Lemma expandFPL_IC g (db : NavDB) (s : string) (t : string) :
  expandFPL g db s = Err (IllegalCharacterError t)
  -> check_tokens (py_split s) = Err (IllegalCharacterError t).
Proof.
  unfold expandFPL. cbv zeta.
  destruct (check_tokens (py_split s)) as [[]|e]; cbn [mbind result_bind];
    [|intros H; injection H as ->; reflexivity].
  destruct (expand_loop g db (py_split s) (seq 0 (List.length (py_split s))) (mkExp [] None 0))
    as [st|e] eqn:E; cbn [mbind result_bind]; [discriminate|].
  intros H. injection H as ->. exfalso. exact (noIC_expand_loop g db _ _ _ t E).
Qed.

(** C6, as the spec words it: a token with two dots passes the check (the
    unnamed-waypoint layout [N1234.5/E16759.9] has two), and a token made of
    a dot alone, within the spec's shape, is refused. *)
Lemma expand_token_shape_counterexample :
  spec_shape "N1234.5/E16759.9" = false
  /\ expandFPL geod_planar db_empty "N1234.5/E16759.9" = Err AttributeError
  /\ spec_shape "." = true
  /\ expandFPL geod_planar db_empty "." = Err (IllegalCharacterError ".").
Proof. vm_compute. repeat split; reflexivity. Qed.

(** C6 (amended): [expandFPL] raises [IllegalCharacterError t] exactly when
    some whitespace-split token is outside the accepted shape (a character
    other than an alphanumeric, [.] or [/]; more than one [/]; or no
    alphanumeric at all; any number of dots is accepted), and then [t] is
    such a token of the plan. *)
Theorem expandFPL_illegal_character (geod_s12 : Q -> Q -> Q -> Q -> Q) (db : NavDB)
    (s : string) :
  (forall t, expandFPL geod_s12 db s = Err (IllegalCharacterError t) ->
     In t (py_split s) /\ allowed_shape t = false)
  /\ ((exists t, In t (py_split s) /\ allowed_shape t = false) ->
      exists t, In t (py_split s) /\ allowed_shape t = false
                /\ expandFPL geod_s12 db s = Err (IllegalCharacterError t)).
Proof.
  split.
  - intros t H. apply expandFPL_IC in H.
    destruct (check_tokens_err _ _ H) as (t' & Ht & Hin & Hs).
    injection Ht as <-. auto.
  - intros (t & Hin & Hs).
    destruct (check_tokens_complete _ _ Hin Hs) as [t' Ht'].
    destruct (check_tokens_err _ _ Ht') as (t'' & Ht'' & Hin' & Hs').
    injection Ht'' as <-. exists t'. split; [exact Hin'|split; [exact Hs'|]].
    unfold expandFPL. cbv zeta. rewrite Ht'. reflexivity.
Qed.

Lemma expandFPL_illegal_character_witness :
  (In "A//B" (py_split "EGLL A//B") /\ allowed_shape "A//B" = false)
  /\ exists t, In t (py_split "EGLL A//B") /\ allowed_shape t = false
     /\ expandFPL geod_planar db_empty "EGLL A//B" = Err (IllegalCharacterError t).
Proof.
  assert (H : In "A//B" (py_split "EGLL A//B") /\ allowed_shape "A//B" = false)
    by (split; [vm_compute; right; left; reflexivity|vm_compute; reflexivity]).
  split; [exact H|].
  apply (proj2 (expandFPL_illegal_character geod_planar db_empty "EGLL A//B")).
  exists "A//B". exact H.
Defined.

(* ================================================================== *)
(** * Further properties of the code *)

(** ** [Route] *)

(** A route built by [Route(n)] and [addWaypoint] keeps the points in the
    order added, and its name list mirrors them: [_wptnames[i]] is
    [_wpts[i].name]. *)
Theorem Route_addWaypoint_names (n : string) (ws : list Obj) :
  rname (fold_left addWaypoint ws (Route_init n)) = n
  /\ r_wpts (fold_left addWaypoint ws (Route_init n)) = ws
  /\ r_wptnames (fold_left addWaypoint ws (Route_init n)) = map (fun w => name (obj w)) ws.
Proof.
  assert (H : forall r, rname (fold_left addWaypoint ws r) = rname r
            /\ r_wpts (fold_left addWaypoint ws r) = (r_wpts r ++ ws)%list
            /\ r_wptnames (fold_left addWaypoint ws r)
               = (r_wptnames r ++ map (fun w => name (obj w)) ws)%list).
  { induction ws as [|w ws IH]; intros r; cbn [fold_left map].
    - rewrite !app_nil_r. auto.
    - destruct (IH (addWaypoint r w)) as (H1 & H2 & H3). cbn in H1, H2, H3.
      rewrite H1, H2, H3, <- !app_assoc. auto. }
  exact (H (Route_init n)).
Qed.

Lemma py_list_index_Some_In {A} (eqb : A -> A -> bool) (l : list A) (x : A) (i : nat) :
  (forall a b, eqb a b = true <-> a = b) ->
  py_list_index eqb l x = Some i -> In x l.
Proof.
  intros Heq. revert i. induction l as [|y l IH]; intros i; cbn; [discriminate|].
  destruct (eqb y x) eqn:E.
  - intros _. left. apply Heq. exact E.
  - destruct (py_list_index eqb l x) as [j|] eqn:Ej; cbn; [|discriminate].
    intros _. right. exact (IH j eq_refl).
Qed.

Lemma py_list_index_None {A} (eqb : A -> A -> bool) (l : list A) (x : A) :
  (forall a b, eqb a b = true <-> a = b) ->
  py_list_index eqb l x = None <-> ~ In x l.
Proof.
  intros Heq. split.
  - intros H Hin. induction l as [|y l IH]; cbn in *; [exact Hin|].
    destruct (eqb y x) eqn:E; [discriminate|].
    destruct (py_list_index eqb l x) eqn:Ej; [discriminate|].
    destruct Hin as [->|Hin]; [|exact (IH eq_refl Hin)].
    rewrite (proj2 (Heq x x) eq_refl) in E. discriminate.
  - intros Hn. destruct (py_list_index eqb l x) as [i|] eqn:E; [|reflexivity].
    exfalso. exact (Hn (py_list_index_Some_In eqb l x i Heq E)).
Qed.

Lemma py_list_index_In {A} (eqb : A -> A -> bool) (l : list A) (x : A) :
  (forall a b, eqb a b = true <-> a = b) ->
  In x l -> exists i, py_list_index eqb l x = Some i.
Proof.
  intros Heq Hin. destruct (py_list_index eqb l x) as [i|] eqn:E; [eauto|].
  exfalso. exact (proj1 (py_list_index_None eqb l x Heq) E Hin).
Qed.

Lemma string_eqb_iff (a b : string) : String.eqb a b = true <-> a = b.
Proof. apply String.eqb_eq. Qed.

(** [getWaypoints] looks the entry up first: an entry not on the route
    raises [NotOnAirwayError(entry, name)] whatever the exit; an entry on
    the route with an exit off it raises [NotOnAirwayError(exit, name)]. *)
Theorem getWaypoints_not_on_airway (r : Route) (entry exit : string) :
  (~ In entry (r_wptnames r) ->
   getWaypoints r entry exit = Err (NotOnAirwayError entry (rname r)))
  /\ (In entry (r_wptnames r) -> ~ In exit (r_wptnames r) ->
      getWaypoints r entry exit = Err (NotOnAirwayError exit (rname r))).
Proof.
  split.
  - intros H. unfold getWaypoints.
    rewrite (proj2 (py_list_index_None String.eqb _ _ string_eqb_iff) H). reflexivity.
  - intros H1 H2. unfold getWaypoints.
    destruct (py_list_index_In String.eqb _ _ string_eqb_iff H1) as [i ->].
    cbn [mbind result_bind].
    rewrite (proj2 (py_list_index_None String.eqb _ _ string_eqb_iff) H2). reflexivity.
Qed.

Lemma getWaypoints_not_on_airway_witness :
  (~ In "X" (r_wptnames route_ABCD)
   /\ getWaypoints route_ABCD "X" "Y" = Err (NotOnAirwayError "X" (rname route_ABCD)))
  /\ (In "A" (r_wptnames route_ABCD) /\ ~ In "Y" (r_wptnames route_ABCD)
      /\ getWaypoints route_ABCD "A" "Y" = Err (NotOnAirwayError "Y" (rname route_ABCD))).
Proof.
  assert (HX : ~ In "X" (r_wptnames route_ABCD))
    by (vm_compute; intros [H|[H|[H|[H|[]]]]]; discriminate H).
  assert (HY : ~ In "Y" (r_wptnames route_ABCD))
    by (vm_compute; intros [H|[H|[H|[H|[]]]]]; discriminate H).
  assert (HA : In "A" (r_wptnames route_ABCD)) by (vm_compute; left; reflexivity).
  split; [split; [exact HX|]|split; [exact HA|split; [exact HY|]]].
  - exact (proj1 (getWaypoints_not_on_airway route_ABCD "X" "Y") HX).
  - exact (proj2 (getWaypoints_not_on_airway route_ABCD "A" "Y") HA HY).
Defined.

(** ** [getClosest] *)

(** [getClosest] raises [ElementNotFoundError(name)] for a name the
    database does not hold, and [ElementAmbiguousError(name)] for a name
    with two or more candidates when no reference point is given. *)
Theorem getClosest_errors (geod_s12 : Q -> Q -> Q -> Q -> Q) (db : NavDB)
    (nm : string) (c : option Obj) :
  (_wpts db !! nm = None -> getClosest geod_s12 db nm c = Err (ElementNotFoundError nm))
  /\ (forall l, _wpts db !! nm = Some l -> 2 <= List.length l ->
      getClosest geod_s12 db nm None = Err (ElementAmbiguousError nm)).
Proof.
  split.
  - intros H. unfold getClosest. rewrite H. reflexivity.
  - intros l H Hl. unfold getClosest. rewrite H. cbn [mbind result_bind].
    destruct (List.length l =? 1) eqn:E; [apply Nat.eqb_eq in E; lia|reflexivity].
Qed.

Lemma getClosest_errors_witness :
  (_wpts db_london !! "XXXXX" = None
   /\ getClosest geod_planar db_london "XXXXX" None = Err (ElementNotFoundError "XXXXX"))
  /\ (_wpts db_london !! "BOGNA" = Some [oBOGNA_far; oBOGNA] /\ 2 <= 2
      /\ getClosest geod_planar db_london "BOGNA" None = Err (ElementAmbiguousError "BOGNA")).
Proof.
  assert (H1 : _wpts db_london !! "XXXXX" = None) by reflexivity.
  assert (H2 : _wpts db_london !! "BOGNA" = Some [oBOGNA_far; oBOGNA]) by reflexivity.
  split; [split; [exact H1|]|split; [exact H2|split; [lia|]]].
  - exact (proj1 (getClosest_errors geod_planar db_london "XXXXX" None) H1).
  - exact (proj2 (getClosest_errors geod_planar db_london "BOGNA" None) _ H2 ltac:(simpl; lia)).
Defined.

(** A name with exactly one candidate resolves to it, with or without a
    reference point and whatever the distances. *)
Theorem getClosest_single (geod_s12 : Q -> Q -> Q -> Q -> Q) (db : NavDB)
    (nm : string) (w : Obj) (c : option Obj) :
  _wpts db !! nm = Some [w] -> getClosest geod_s12 db nm c = Ok w.
Proof. intros H. unfold getClosest. rewrite H. reflexivity. Qed.

Lemma getClosest_single_witness :
  _wpts db_london !! "EGLL" = Some [oEGLL]
  /\ getClosest geod_planar db_london "EGLL" None = Ok oEGLL.
Proof.
  assert (H : _wpts db_london !! "EGLL" = Some [oEGLL]) by reflexivity.
  split; [exact H|exact (getClosest_single geod_planar db_london "EGLL" oEGLL None H)].
Defined.

(** ** [getFPLelemtype] *)

(** The classifier returns no role exactly for the 4-character tokens that
    start with ["NAT"] and whose fourth character is not a letter. *)
Theorem getFPLelemtype_None_iff (db : NavDB) (t : string) :
  getFPLelemtype db t = None
  <-> String.length t = 4 /\ py_slice t 0 3 = "NAT"
      /\ (forall c, String.get 3 t = Some c -> py_isalpha_char c = false).
Proof.
  unfold getFPLelemtype. cbv zeta. split.
  - destruct (String.eqb t "DCT"); [discriminate|].
    destruct (_ && _ && _); [discriminate|].
    destruct (_ && char_at_is _ _ _ && _); [discriminate|].
    destruct ((String.length t =? 4) && py_contains (py_slice t 0 3) "NAT") eqn:E.
    + apply andb_true_iff in E as [E1 E2]. apply Nat.eqb_eq in E1.
      destruct (String.get 3 t) as [c|] eqn:Eg.
      * destruct (py_isalpha_char c) eqn:Ea; [discriminate|]. intros _.
        split; [exact E1|split].
        -- apply contains_NAT_len3; [|exact E2].
           destruct t as [|a1 [|a2 [|a3 [|a4 [|a5 t]]]]]; try discriminate E1; reflexivity.
        -- intros c' Hc'. congruence.
      * intros _. exfalso.
        destruct t as [|a1 [|a2 [|a3 [|a4 t]]]]; try discriminate E1; discriminate Eg.
    + repeat case_match; intros Hn; discriminate Hn.
  - intros (Hl & Hs & Ha).
    assert (Hd : String.eqb t "DCT" = false).
    { destruct (String.eqb t "DCT") eqn:E; [|reflexivity].
      apply String.eqb_eq in E. subst t. discriminate Hl. }
    rewrite Hd, Hl, Hs. cbn.
    destruct (String.get 3 t) as [c|] eqn:Eg; [rewrite (Ha c eq_refl), andb_false_r; reflexivity|].
    destruct t as [|a1 [|a2 [|a3 [|a4 t]]]]; try discriminate Hl; discriminate Eg.
Qed.

Lemma getFPLelemtype_None_iff_witness :
  (String.length "NAT1" = 4 /\ py_slice "NAT1" 0 3 = "NAT"
   /\ (forall c, String.get 3 "NAT1" = Some c -> py_isalpha_char c = false))
  /\ getFPLelemtype db_empty "NAT1" = None.
Proof.
  assert (H : String.length "NAT1" = 4 /\ py_slice "NAT1" 0 3 = "NAT"
              /\ (forall c, String.get 3 "NAT1" = Some c -> py_isalpha_char c = false)).
  { split; [reflexivity|split; [reflexivity|]].
    intros c Hc. vm_compute in Hc. injection Hc as <-. reflexivity. }
  split; [exact H|exact (proj2 (getFPLelemtype_None_iff db_empty "NAT1") H)].
Defined.

(** ** [UnnamedWaypoint.__init__] *)

(** A decoded unnamed waypoint carries the token as its name, type
    ["uWPT"], an empty description, and lies within [-90, 90] x
    [-180, 180]. *)
Theorem UnnamedWaypoint_init_ok (s : string) (w : WayPoint) :
  UnnamedWaypoint_init s = Ok w ->
  name w = s /\ type w = "uWPT" /\ descr w = ""
  /\ (-90 <= lat w <= 90)%Q /\ (-180 <= lon w <= 180)%Q.
Proof.
  unfold UnnamedWaypoint_init.
  destruct (decode_layout s) as [[la lo]|e]; cbn [mbind result_bind]; [|discriminate].
  unfold Qlt_bool.
  destruct (Qle_bool (-90) la) eqn:E1, (Qle_bool la 90) eqn:E2,
           (Qle_bool (-180) lo) eqn:E3, (Qle_bool lo 180) eqn:E4;
    cbn; try discriminate.
  intros H. injection H as <-. cbn.
  apply Qle_bool_iff in E1, E2, E3, E4. auto 10.
Qed.

Lemma UnnamedWaypoint_init_ok_witness :
  UnnamedWaypoint_init "87N060W" = Ok (mkWpt "87N060W" 87 (-60) "uWPT" "")
  /\ (name (mkWpt "87N060W" 87 (-60) "uWPT" "") = "87N060W"
      /\ type (mkWpt "87N060W" 87 (-60) "uWPT" "") = "uWPT"
      /\ descr (mkWpt "87N060W" 87 (-60) "uWPT" "") = ""
      /\ (-90 <= lat (mkWpt "87N060W" 87 (-60) "uWPT" "") <= 90)%Q
      /\ (-180 <= lon (mkWpt "87N060W" 87 (-60) "uWPT" "") <= 180)%Q).
Proof.
  assert (H : UnnamedWaypoint_init "87N060W" = Ok (mkWpt "87N060W" 87 (-60) "uWPT" ""))
    by (vm_compute; reflexivity).
  split; [exact H|exact (UnnamedWaypoint_init_ok _ _ H)].
Defined.

(** ** [expandFPL] on a blank plan *)

(** A flight plan made only of whitespace (or empty) expands to the empty
    list, whatever the database. *)
Theorem expandFPL_blank (geod_s12 : Q -> Q -> Q -> Q -> Q) (db : NavDB) (s : string) :
  forallb py_isspace_char (chars s) = true -> expandFPL geod_s12 db s = Ok [].
Proof.
  intros H. unfold expandFPL, py_split.
  assert (Hs : split_aux (chars s) [] = []).
  { induction (chars s) as [|c l IH]; [reflexivity|].
    cbn in H. apply andb_true_iff in H as [Hc Hl]. cbn. rewrite Hc. exact (IH Hl). }
  rewrite Hs. reflexivity.
Qed.

Lemma expandFPL_blank_witness :
  forallb py_isspace_char (chars ("  " ++ newline)) = true
  /\ expandFPL geod_planar db_london ("  " ++ newline) = Ok [].
Proof.
  assert (H : forallb py_isspace_char (chars ("  " ++ newline)) = true)
    by (vm_compute; reflexivity).
  split; [exact H|exact (expandFPL_blank geod_planar db_london _ H)].
Defined.

(** ** The loader *)

Lemma bind_eq_Ok {A B} (m : result A) (k : A -> result B) (y : B) :
  (m ≫= k) = Ok y -> exists x, m = Ok x /\ k x = Ok y.
Proof. destruct m as [x|e]; cbn; [eauto|discriminate]. Qed.

Ltac inv_bind H :=
  let x := fresh "x" in let Hx := fresh "Hx" in
  apply bind_eq_Ok in H; destruct H as (x & Hx & H).

Lemma _load_inv (fs : FileSystem) (datadir : string) (airac0 : option AIRACcycle)
    (db : NavDB) :
  _load fs datadir airac0 = Ok db ->
  exists f1 st1 f2 st2 f3 st3 f4 st4 f5 rst awys noawys,
    py_open fs (datadir ++ "/wpNavAID.txt") = Ok f1
    /\ load_points navaid_line "wpNavAID.txt" f1 (mkLState airac0 ∅ 0 0) = Ok st1
    /\ py_open fs (datadir ++ "/wpNavFIX.txt") = Ok f2
    /\ load_points fix_line "wpNavFIX.txt" f2
         (mkLState (s_airac st1) (s_wpts st1) 0 (s_next st1)) = Ok st2
    /\ py_open fs (datadir ++ "/wpNavAPT.txt") = Ok f3
    /\ load_points runway_line "wpNavFIX.txt" f3
         (mkLState (s_airac st2) (s_wpts st2) 0 (s_next st2)) = Ok st3
    /\ py_open fs (datadir ++ "/airports.dat") = Ok f4
    /\ load_points airport_line "airports.dat" f4
         (mkLState (s_airac st3) (s_wpts st3) 0 (s_next st3)) = Ok st4
    /\ py_open fs (datadir ++ "/wpNavRTE.txt") = Ok f5
    /\ load_routes f5 (mkRState (s_airac st4) ∅ None 0 (s_next st4)) = Ok rst
    /\ flush_last rst = Ok (awys, noawys)
    /\ db = mkNavDB (r_airac rst) awys (s_wpts st4)
              (s_nold st1) (s_nold st2) (s_nold st3) (s_nold st4) noawys.
Proof.
  intros H. unfold _load in H. cbv zeta in H.
  do 11 inv_bind H.
  destruct x9 as [awys noawys]. injection H as <-.
  do 12 eexists. repeat split; eassumption.
Qed.

Lemma load_points_count (parse : string -> result (string * WayPoint)) (label : string)
    (ls : list string) (st st' : LState) :
  load_points parse label ls st = Ok st' ->
  s_nold st' = s_nold st + count_data ls /\ s_next st' = s_next st + count_data ls.
Proof.
  revert st. induction ls as [|l ls IH]; intros st H; cbn in H.
  - injection H as <-. unfold count_data. cbn. lia.
  - inv_bind H. unfold py_index in Hx.
    destruct l as [|c l]; cbn in Hx; [discriminate|]. injection Hx as <-.
    unfold count_data. cbn [List.filter is_data_line].
    destruct (Ascii.eqb c ";"%char) eqn:E; cbn [negb].
    + inv_bind H. apply IH in H. cbn in H. exact H.
    + inv_bind H. destruct x as [n w]. apply IH in H. cbn in H.
      cbn [List.length]. unfold count_data in H. lia.
Qed.

Lemma setdefault_append_In (m : gmap string (list Obj)) (n k : string) (o x : Obj)
    (l : list Obj) :
  setdefault_append m n o !! k = Some l -> In x l ->
  (exists l0, m !! k = Some l0 /\ In x l0) \/ (x = o /\ k = n).
Proof.
  unfold setdefault_append. rewrite lookup_insert. case_decide as Hk.
  - subst k. intros H. injection H as <-. intros Hin. apply in_app_or in Hin.
    destruct Hin as [Hin|[<-|[]]]; [|right; auto].
    left. destruct (m !! n) as [l0|]; cbn in Hin; [eauto|contradiction].
  - intros H Hin. left. eauto.
Qed.

Lemma pts_inv_empty (next : nat) : pts_inv ∅ next.
Proof. split; intros *; rewrite lookup_empty; discriminate. Qed.

Lemma pts_inv_add (m : gmap string (list Obj)) (next : nat) (n : string) (w : WayPoint) :
  pts_inv m next -> name w = n ->
  pts_inv (setdefault_append m n (mkObj (OLoaded next) w)) (S next).
Proof.
  intros [H1 H2] Hn. split.
  - intros k l o Hk Hin.
    destruct (setdefault_append_In _ _ _ _ _ _ Hk Hin) as [(l0 & Hl0 & Hin0)|[-> ->]].
    + destruct (H1 _ _ _ Hl0 Hin0) as [Hname (n' & Ho & Hlt)].
      split; [exact Hname|exists n'; split; [exact Ho|lia]].
    + split; [exact Hn|exists next; split; [reflexivity|lia]].
  - intros k1 k2 l1 l2 o1 o2 Hk1 Hk2 Hin1 Hin2 Hid.
    destruct (setdefault_append_In _ _ _ _ _ _ Hk1 Hin1) as [(l1' & Hl1 & Hin1')|[-> _]];
    destruct (setdefault_append_In _ _ _ _ _ _ Hk2 Hin2) as [(l2' & Hl2 & Hin2')|[-> _]].
    + exact (H2 _ _ _ _ _ _ Hl1 Hl2 Hin1' Hin2' Hid).
    + destruct (H1 _ _ _ Hl1 Hin1') as [_ (n' & Ho & Hlt)].
      rewrite Ho in Hid. cbn in Hid. injection Hid as ->. lia.
    + destruct (H1 _ _ _ Hl2 Hin2') as [_ (n' & Ho & Hlt)].
      rewrite Ho in Hid. cbn in Hid. injection Hid as ->. lia.
    + reflexivity.
Qed.

Lemma load_points_inv (parse : string -> result (string * WayPoint)) (label : string)
    (ls : list string) (st st' : LState) :
  (forall l n w, parse l = Ok (n, w) -> name w = n) ->
  pts_inv (s_wpts st) (s_next st) ->
  load_points parse label ls st = Ok st' ->
  pts_inv (s_wpts st') (s_next st').
Proof.
  intros Hparse. revert st. induction ls as [|l ls IH]; intros st Hinv H; cbn in H.
  - injection H as <-. exact Hinv.
  - inv_bind H. destruct (Ascii.eqb x ";"%char).
    + inv_bind H. apply IH in H; [exact H|exact Hinv].
    + inv_bind H. destruct x0 as [n w]. apply IH in H; [exact H|].
      cbn. apply pts_inv_add; [exact Hinv|exact (Hparse _ _ _ Hx0)].
Qed.

Ltac parse_name :=
  let l := fresh "l" in let n := fresh "n" in let w := fresh "w" in
  let H := fresh "H" in
  intros l n w H; cbv zeta in H;
  repeat (let x := fresh "x" in let Hx := fresh "Hx" in
          apply bind_eq_Ok in H; destruct H as (x & Hx & H));
  injection H as <- <-; reflexivity.

Lemma navaid_line_name : forall l n w, navaid_line l = Ok (n, w) -> name w = n.
Proof. unfold navaid_line. parse_name. Qed.

Lemma fix_line_name : forall l n w, fix_line l = Ok (n, w) -> name w = n.
Proof. unfold fix_line. parse_name. Qed.

Lemma runway_line_name : forall l n w, runway_line l = Ok (n, w) -> name w = n.
Proof. unfold runway_line. parse_name. Qed.

Lemma airport_line_name : forall l n w, airport_line l = Ok (n, w) -> name w = n.
Proof. unfold airport_line. parse_name. Qed.

(** Every database the loader builds has a well-formed point map: each
    candidate is filed under its own name, and two candidates with the same
    identity are the same object (the hypothesis [wpts_wf] of the
    expansion properties holds for loaded databases). *)
Theorem load_wpts_wf (fs : FileSystem) (datadir : string) (airac0 : option AIRACcycle)
    (db : NavDB) :
  _load fs datadir airac0 = Ok db -> wpts_wf db.
Proof.
  intros H.
  destruct (_load_inv _ _ _ _ H)
    as (f1 & st1 & f2 & st2 & f3 & st3 & f4 & st4 & f5 & rst & awys & noawys
        & _ & L1 & _ & L2 & _ & L3 & _ & L4 & _ & _ & _ & ->).
  apply load_points_inv in L1; [|exact navaid_line_name|apply pts_inv_empty].
  apply load_points_inv in L2; [|exact fix_line_name|exact L1].
  apply load_points_inv in L3; [|exact runway_line_name|exact L2].
  apply load_points_inv in L4; [|exact airport_line_name|exact L3].
  destruct L4 as [H1 H2]. split; cbn.
  - intros k l o Hk Hin. exact (proj1 (H1 _ _ _ Hk Hin)).
  - exact H2.
Qed.

(** On success the four point counters are the numbers of data lines (lines
    not starting with [;]) of [wpNavAID.txt], [wpNavFIX.txt],
    [wpNavAPT.txt] and [airports.dat]: every data line adds one point. *)
Theorem load_point_counts (fs : FileSystem) (datadir : string)
    (airac0 : option AIRACcycle) (db : NavDB) (f1 f2 f3 f4 : list string) :
  _load fs datadir airac0 = Ok db ->
  fs (datadir ++ "/wpNavAID.txt") = Some f1 ->
  fs (datadir ++ "/wpNavFIX.txt") = Some f2 ->
  fs (datadir ++ "/wpNavAPT.txt") = Some f3 ->
  fs (datadir ++ "/airports.dat") = Some f4 ->
  _nonavaids db = count_data f1 /\ _nofixes db = count_data f2
  /\ _norwys db = count_data f3 /\ _noarpts db = count_data f4.
Proof.
  intros H E1 E2 E3 E4.
  destruct (_load_inv _ _ _ _ H)
    as (g1 & st1 & g2 & st2 & g3 & st3 & g4 & st4 & f5 & rst & awys & noawys
        & O1 & L1 & O2 & L2 & O3 & L3 & O4 & L4 & _ & _ & _ & ->).
  unfold py_open in O1, O2, O3, O4.
  rewrite E1 in O1. rewrite E2 in O2. rewrite E3 in O3. rewrite E4 in O4.
  injection O1 as <-. injection O2 as <-. injection O3 as <-. injection O4 as <-.
  apply load_points_count in L1, L2, L3, L4. cbn in *. lia.
Qed.

Lemma route_ok_addWaypoint (r : Route) (w : Obj) :
  r_wptnames r = map (fun w => name (obj w)) (r_wpts r) -> route_ok (addWaypoint r w).
Proof.
  intros H. split; cbn.
  - intros E. apply app_eq_nil in E. destruct E as [_ E]. discriminate E.
  - rewrite H, map_app. reflexivity.
Qed.

Lemma load_routes_inv (ls : list string) (st st' : RState) :
  (forall k r, r_awys st !! k = Some r -> rname r = k /\ route_ok r) ->
  (forall r, cawy st = Some r -> route_ok r) ->
  load_routes ls st = Ok st' ->
  (forall k r, r_awys st' !! k = Some r -> rname r = k /\ route_ok r)
  /\ (forall r, cawy st' = Some r -> route_ok r).
Proof.
  revert st. induction ls as [|l ls IH]; intros st Ha Hc H; cbn [load_routes] in H.
  - injection H as <-. auto.
  - inv_bind H. destruct (Ascii.eqb x ";"%char).
    + inv_bind H. apply IH in H; [exact H|exact Ha|exact Hc].
    + destruct (py_split l) as [|n [|nr [|wn [|la [|lo [|? ?]]]]]]; try discriminate H.
      cbv zeta in H. inv_bind H. inv_bind H.
      assert (Hcur : forall cur, cur = match cawy st with Some r => r | None => Route_init n end ->
                r_wptnames cur = map (fun w => name (obj w)) (r_wpts cur)).
      { intros cur ->. destruct (cawy st) as [r|] eqn:Ec; [exact (proj2 (Hc r eq_refl))|].
        reflexivity. }
      destruct (String.eqb (rname match cawy st with Some r => r | None => Route_init n end) n)
        eqn:E.
      * apply IH in H; [exact H|exact Ha|].
        intros r Hr. cbn in Hr. injection Hr as <-. apply route_ok_addWaypoint. auto.
      * apply IH in H; [exact H| |].
        -- intros k r Hr. cbn in Hr. rewrite lookup_insert in Hr. case_decide as Hk.
           ++ injection Hr as <-. split; [exact Hk|].
              destruct (cawy st) as [r0|] eqn:Ec; [exact (Hc r0 eq_refl)|].
              cbn in E. rewrite String.eqb_refl in E. discriminate E.
           ++ exact (Ha k r Hr).
        -- intros r Hr. cbn in Hr. injection Hr as <-. apply route_ok_addWaypoint.
           reflexivity.
Qed.

(** Every airway of a loaded database is filed under its own name, holds at
    least one point, and its name list mirrors its points. *)
Theorem load_airways_ok (fs : FileSystem) (datadir : string)
    (airac0 : option AIRACcycle) (db : NavDB) :
  _load fs datadir airac0 = Ok db ->
  forall k r, _awys db !! k = Some r -> rname r = k /\ route_ok r.
Proof.
  intros H.
  destruct (_load_inv _ _ _ _ H)
    as (f1 & st1 & f2 & st2 & f3 & st3 & f4 & st4 & f5 & rst & awys & noawys
        & _ & _ & _ & _ & _ & _ & _ & _ & _ & R & F & ->).
  apply load_routes_inv in R; [|intros k r Hr; cbn in Hr; rewrite lookup_empty in Hr; discriminate
                               |intros r Hr; discriminate].
  destruct R as [Ha Hc]. unfold flush_last in F.
  destruct (cawy rst) as [r0|] eqn:Ec; [|discriminate]. injection F as <- _.
  intros k r Hr. cbn in Hr. rewrite lookup_insert in Hr. case_decide as Hk.
  - injection Hr as <-. split; [exact Hk|exact (Hc r0 eq_refl)].
  - exact (Ha k r Hr).
Qed.

Lemma load_small : _load fs_small "navdata" None = Ok db_small.
Proof. vm_compute. reflexivity. Qed.

Lemma load_wpts_wf_witness :
  _load fs_small "navdata" None = Ok db_small /\ wpts_wf db_small.
Proof. split; [exact load_small|exact (load_wpts_wf _ _ _ _ load_small)]. Defined.

Lemma load_point_counts_witness :
  (_load fs_small "navdata" None = Ok db_small
   /\ fs_small ("navdata" ++ "/wpNavAID.txt") = Some small_aid
   /\ fs_small ("navdata" ++ "/wpNavFIX.txt") = Some small_fix
   /\ fs_small ("navdata" ++ "/wpNavAPT.txt") = Some small_apt
   /\ fs_small ("navdata" ++ "/airports.dat") = Some small_arp)
  /\ (_nonavaids db_small = count_data small_aid /\ _nofixes db_small = count_data small_fix
      /\ _norwys db_small = count_data small_apt /\ _noarpts db_small = count_data small_arp).
Proof.
  assert (H1 : fs_small ("navdata" ++ "/wpNavAID.txt") = Some small_aid)
    by (vm_compute; reflexivity).
  assert (H2 : fs_small ("navdata" ++ "/wpNavFIX.txt") = Some small_fix)
    by (vm_compute; reflexivity).
  assert (H3 : fs_small ("navdata" ++ "/wpNavAPT.txt") = Some small_apt)
    by (vm_compute; reflexivity).
  assert (H4 : fs_small ("navdata" ++ "/airports.dat") = Some small_arp)
    by (vm_compute; reflexivity).
  split; [exact (conj load_small (conj H1 (conj H2 (conj H3 H4))))|].
  exact (load_point_counts fs_small "navdata" None db_small _ _ _ _ load_small H1 H2 H3 H4).
Defined.

Lemma load_airways_ok_witness :
  _load fs_small "navdata" None = Ok db_small
  /\ exists r, _awys db_small !! "UL9" = Some r /\ rname r = "UL9" /\ route_ok r.
Proof.
  assert (H : _awys db_small !! "UL9" = Some r_small) by (vm_compute; reflexivity).
  split; [exact load_small|]. exists r_small. split; [exact H|].
  exact (load_airways_ok _ _ _ _ load_small "UL9" r_small H).
Defined.

(** ** What the classifier reads from the database *)

(** The database is consulted only for tokens that no shape rule
    classifies (those the empty database calls ["prc"]): such a token is
    ["awy"] if it names an airway, else ["fix"] if it names a point, else
    ["prc"]; every other token gets the same role in every database. *)
Theorem getFPLelemtype_db (db : NavDB) (t : string) :
  getFPLelemtype db t =
  if bool_decide (getFPLelemtype db_empty t = Some "prc") then
    (if bool_decide (is_Some (_awys db !! t)) then Some "awy"
     else if bool_decide (is_Some (_wpts db !! t)) then Some "fix"
     else Some "prc")
  else getFPLelemtype db_empty t.
Proof.
  unfold getFPLelemtype. cbv zeta. cbn [_awys _wpts db_empty].
  rewrite !lookup_empty.
  repeat match goal with
  | |- context [if ?b then _ else _] =>
      lazymatch b with bool_decide _ => fail | _ => destruct b end
  | |- context [match String.get ?i ?t with _ => _ end] => destruct (String.get i t)
  end; reflexivity.
Qed.

(** ** Airways and the origin of the expanded points *)

Lemma expand_loop_app g (db : NavDB) (arr : list string) (l1 l2 : list nat)
    (st : ExpState) :
  expand_loop g db arr (l1 ++ l2) st
  = (st' ← expand_loop g db arr l1 st; expand_loop g db arr l2 st').
Proof.
  revert st. induction l1 as [|i l1 IH]; intros st; cbn [app expand_loop]; [reflexivity|].
  destruct (expand_step g db arr i st); cbn [mbind result_bind]; [apply IH|reflexivity].
Qed.

Lemma getWaypoints_same (r : Route) (e : string) :
  In e (r_wptnames r) -> getWaypoints r e e = Ok [].
Proof.
  intros H. destruct (py_list_index_In String.eqb _ _ string_eqb_iff H) as [i Hi].
  unfold getWaypoints. rewrite Hi. cbn [mbind result_bind].
  rewrite Z.ltb_irrefl. unfold py_range. cbn [Z.eqb]. rewrite Z.sub_diag. reflexivity.
Qed.

(** A plan that enters and leaves an airway at the same point ([X AWY X],
    with [X] on the airway) fails with [IndexError] when the airway token
    is reached: the segment is empty and [awy_wpts[-1]] is read. *)
Theorem expand_airway_same_entry_exit (geod_s12 : Q -> Q -> Q -> Q -> Q) (db : NavDB)
    (s : string) (i : nat) (r : Route) (st : ExpState) :
  check_tokens (py_split s) = Ok tt ->
  1 <= i -> i + 1 < List.length (py_split s) ->
  getFPLelemtype db (nth i (py_split s) "") = Some "awy" ->
  _awys db !! nth i (py_split s) "" = Some r ->
  nth (i - 1) (py_split s) "" = nth (i + 1) (py_split s) "" ->
  In (nth (i - 1) (py_split s) "") (r_wptnames r) ->
  expand_loop geod_s12 db (py_split s) (seq 0 i) (mkExp [] None 0) = Ok st ->
  expandFPL geod_s12 db s = Err IndexError.
Proof.
  intros Hc H1 H2 Hty Hr Heq Hin Hpre.
  unfold expandFPL. cbv zeta. set (arr := py_split s) in *.
  rewrite Hc. cbn [mbind result_bind].
  replace (List.length arr) with (i + S (List.length arr - i - 1)) by lia.
  rewrite seq_app, expand_loop_app, Hpre. cbn [mbind result_bind Nat.add seq expand_loop].
  unfold expand_step. cbv zeta. rewrite Hty.
  rewrite bool_decide_true by reflexivity.
  unfold has_neighbours.
  replace (i + S (List.length arr - i - 1)) with (List.length arr) by lia.
  replace ((1 <=? i) && (i + 1 <? List.length arr)) with true
    by (symmetry; apply andb_true_iff; split; [apply Nat.leb_le|apply Nat.ltb_lt]; lia).
  cbn [andb]. rewrite Hr. cbn [mbind result_bind].
  rewrite <- Heq, (getWaypoints_same r _ Hin). reflexivity.
Qed.

Lemma expand_airway_same_entry_exit_witness :
  (check_tokens (py_split "BOGNA UL9 BOGNA") = Ok tt
   /\ 1 <= 1 /\ 1 + 1 < List.length (py_split "BOGNA UL9 BOGNA")
   /\ getFPLelemtype db_small (nth 1 (py_split "BOGNA UL9 BOGNA") "") = Some "awy"
   /\ _awys db_small !! nth 1 (py_split "BOGNA UL9 BOGNA") "" = Some r_small
   /\ nth (1 - 1) (py_split "BOGNA UL9 BOGNA") "" = nth (1 + 1) (py_split "BOGNA UL9 BOGNA") ""
   /\ In (nth (1 - 1) (py_split "BOGNA UL9 BOGNA") "") (r_wptnames r_small)
   /\ expand_loop geod_planar db_small (py_split "BOGNA UL9 BOGNA") (seq 0 1) (mkExp [] None 0)
      = Ok (match expand_loop geod_planar db_small (py_split "BOGNA UL9 BOGNA") (seq 0 1)
                    (mkExp [] None 0) with Ok st => st | Err _ => mkExp [] None 0 end))
  /\ expandFPL geod_planar db_small "BOGNA UL9 BOGNA" = Err IndexError.
Proof.
  assert (H : check_tokens (py_split "BOGNA UL9 BOGNA") = Ok tt
   /\ 1 <= 1 /\ 1 + 1 < List.length (py_split "BOGNA UL9 BOGNA")
   /\ getFPLelemtype db_small (nth 1 (py_split "BOGNA UL9 BOGNA") "") = Some "awy"
   /\ _awys db_small !! nth 1 (py_split "BOGNA UL9 BOGNA") "" = Some r_small
   /\ nth (1 - 1) (py_split "BOGNA UL9 BOGNA") "" = nth (1 + 1) (py_split "BOGNA UL9 BOGNA") ""
   /\ In (nth (1 - 1) (py_split "BOGNA UL9 BOGNA") "") (r_wptnames r_small)
   /\ expand_loop geod_planar db_small (py_split "BOGNA UL9 BOGNA") (seq 0 1) (mkExp [] None 0)
      = Ok (match expand_loop geod_planar db_small (py_split "BOGNA UL9 BOGNA") (seq 0 1)
                    (mkExp [] None 0) with Ok st => st | Err _ => mkExp [] None 0 end)).
  { split; [vm_compute; reflexivity|split; [lia|split; [vm_compute; lia|]]].
    split; [vm_compute; reflexivity|split; [vm_compute; reflexivity|]].
    split; [vm_compute; reflexivity|split; [vm_compute; left; reflexivity|]].
    vm_compute. reflexivity. }
  split; [exact H|].
  destruct H as (Hc & H1 & H2 & Hty & Hr & Heq & Hin & Hpre).
  exact (expand_airway_same_entry_exit geod_planar db_small _ 1 r_small _
           Hc H1 H2 Hty Hr Heq Hin Hpre).
Defined.

Lemma py_get_In {A} (l : list A) (i : Z) (y : A) : py_get l i = Ok y -> In y l.
Proof.
  unfold py_get. cbv zeta. destruct (_ <? 0)%Z; [discriminate|].
  destruct (nth_error l _) eqn:E; [|discriminate]. intros H. injection H as <-.
  exact (nth_error_In _ _ E).
Qed.

Lemma mapM_py_get_In {A} (l : list A) (idx : list Z) (ys : list A) :
  mapM (py_get l) idx = Ok ys -> forall y, In y ys -> In y l.
Proof.
  revert ys. induction idx as [|i idx IH]; intros ys H; cbn in H.
  - injection H as <-. intros y [].
  - inv_bind H. inv_bind H. injection H as <-. intros y [<-|Hy].
    + exact (py_get_In _ _ _ Hx).
    + exact (IH _ Hx0 y Hy).
Qed.

Lemma getWaypoints_In (r : Route) (a b : string) (ys : list Obj) :
  getWaypoints r a b = Ok ys -> forall y, In y ys -> In y (r_wpts r).
Proof.
  unfold getWaypoints. intros H. do 3 inv_bind H. exact (mapM_py_get_In _ _ _ H).
Qed.

Lemma getClosest_Ok_In g (db : NavDB) (nm : string) (c : option Obj) (w : Obj) :
  getClosest g db nm c = Ok w -> exists l, _wpts db !! nm = Some l /\ In w l.
Proof.
  unfold getClosest. destruct (_wpts db !! nm) as [l|]; cbn [mbind result_bind];
    [|discriminate].
  intros H. exists l. split; [reflexivity|].
  destruct (List.length l =? 1); [exact (py_get_In _ _ _ H)|].
  destruct c as [c|]; [|discriminate]. cbv zeta in H. inv_bind H.
  destruct (py_list_index _ _ _); [exact (py_get_In _ _ _ H)|discriminate].
Qed.

Section Provenance.

Variable geod_s12 : Q -> Q -> Q -> Q -> Q.
Variable db : NavDB.
Variable arr : list string.

Let P (o : Obj) : Prop :=
  from_db db (obj o) \/ exists t, In t arr /\ UnnamedWaypoint_init t = Ok (obj o).

Lemma push_Forall (st : ExpState) (o : option Obj) :
  Forall P (wpts st) -> (forall w, o = Some w -> P w) -> Forall P (wpts (push st o)).
Proof.
  intros HF Ho. destruct o as [w|]; cbn; [|exact HF].
  apply Forall_app. split; [exact HF|]. constructor; [apply Ho; reflexivity|constructor].
Qed.

Lemma getClosest_P (nm : string) (c : option Obj) (w : Obj) :
  getClosest geod_s12 db nm c = Ok w -> P w.
Proof.
  intros H. destruct (getClosest_Ok_In _ _ _ _ _ H) as (l & Hl & Hin).
  left. left. exists nm, l, w. auto.
Qed.

Lemma expand_step_provenance (i : nat) (st st' : ExpState) :
  i < List.length arr -> Forall P (wpts st) ->
  expand_step geod_s12 db arr i st = Ok st' -> Forall P (wpts st').
Proof.
  intros Hi HF H. unfold expand_step in H. cbv zeta in H.
  destruct (bool_decide _ && has_neighbours _ _).
  { destruct (_awys db !! nth i arr "") as [r|] eqn:Er; cbn [mbind result_bind] in H;
      [|discriminate].
    inv_bind H. inv_bind H. injection H as <-. cbn.
    apply Forall_app. split; [exact HF|].
    apply List.Forall_forall. intros o Ho.
    assert (Ho' : In o x) by (destruct x; [contradiction|right; exact Ho]).
    left. right. exists (nth i arr ""), r, o.
    split; [exact Er|split; [exact (getWaypoints_In _ _ _ _ Hx o Ho')|reflexivity]]. }
  destruct (bool_decide _ && has_neighbours _ _).
  { inv_bind H. inv_bind H. injection H as <-. apply push_Forall; [exact HF|].
    intros w Hw. subst x0.
    destruct (bool_decide (getFPLelemtype db (nth (i - 1) arr "") = Some "fix") && _).
    - inv_bind Hx0. inv_bind Hx0. injection Hx0 as Hx0.
      destruct (py_is _ _); [discriminate|]. injection Hx0 as ->.
      exact (getClosest_P _ _ _ Hx2).
    - injection Hx0 as ->.
      destruct (bool_decide (getFPLelemtype db (nth (i + 1) arr "") = Some "fix") && _).
      + inv_bind Hx. inv_bind Hx. injection Hx as <-. exact (getClosest_P _ _ _ Hx1).
      + discriminate. }
  destruct (bool_decide _ || bool_decide _).
  { destruct (apts_found st <? 2); [|injection H as <-; exact HF].
    destruct (_wpts db !! nth i arr "") as [[|a l]|] eqn:E; cbn [mbind result_bind] in H;
      try discriminate.
    injection H as <-. cbn. apply Forall_app. split; [exact HF|].
    constructor; [|constructor]. left. left. exists (nth i arr ""), (a :: l), a.
    split; [exact E|split; [left; reflexivity|reflexivity]]. }
  destruct (bool_decide _).
  { inv_bind H. inv_bind H. injection H as <-. apply push_Forall; [exact HF|].
    intros w Hw. destruct (Qlt_bool _ _); [discriminate|]. injection Hw as <-.
    right. exists (nth i arr ""). split; [apply nth_In; exact Hi|exact Hx]. }
  destruct (bool_decide _).
  { inv_bind H. injection H as <-. apply push_Forall; [exact HF|].
    intros w Hw. destruct (py_is _ _); [discriminate|]. injection Hw as <-.
    exact (getClosest_P _ _ _ Hx). }
  injection H as <-. exact HF.
Qed.

Lemma expand_loop_provenance (idx : list nat) (st st' : ExpState) :
  Forall (fun i => i < List.length arr) idx -> Forall P (wpts st) ->
  expand_loop geod_s12 db arr idx st = Ok st' -> Forall P (wpts st').
Proof.
  revert st. induction idx as [|i idx IH]; intros st Hidx HF H; cbn [expand_loop] in H.
  - injection H as <-. exact HF.
  - inversion Hidx as [|? ? Hi Hidx']; subst. inv_bind H.
    exact (IH _ Hidx' (expand_step_provenance _ _ _ Hi HF Hx) H).
Qed.

End Provenance.

(** Expansion never invents a point: every waypoint [expandFPL] returns is
    a candidate of the point map, a point of an airway, or the decoding of
    a token of the plan. *)
Theorem expandFPL_provenance (geod_s12 : Q -> Q -> Q -> Q -> Q) (db : NavDB) (s : string)
    (ws : list WayPoint) :
  expandFPL geod_s12 db s = Ok ws ->
  Forall (fun w => from_db db w
                   \/ exists t, In t (py_split s) /\ UnnamedWaypoint_init t = Ok w) ws.
Proof.
  intros H. unfold expandFPL in H. cbv zeta in H. inv_bind H. inv_bind H.
  injection H as <-. apply Forall_map.
  eapply (expand_loop_provenance geod_s12 db (py_split s)); [| |exact Hx0].
  - apply List.Forall_forall. intros i Hi. apply in_seq in Hi. lia.
  - constructor.
Qed.

Lemma expandFPL_provenance_witness :
  expandFPL geod_planar db_london "EGLL DCT BOGNA EGKK"
    = Ok [obj oEGLL; obj oBOGNA; obj oEGKK]
  /\ Forall (fun w => from_db db_london w
                      \/ exists t, In t (py_split "EGLL DCT BOGNA EGKK")
                                   /\ UnnamedWaypoint_init t = Ok w)
       [obj oEGLL; obj oBOGNA; obj oEGKK].
Proof.
  assert (H : expandFPL geod_planar db_london "EGLL DCT BOGNA EGKK"
              = Ok [obj oEGLL; obj oBOGNA; obj oEGKK]) by (vm_compute; reflexivity).
  split; [exact H|exact (expandFPL_provenance _ _ _ _ H)].
Defined.

(** ** The decoder and the classifier agree *)

Lemma digit_neq (c x : ascii) :
  py_isdigit_char c = true -> py_isdigit_char x = false -> Ascii.eqb c x = false.
Proof.
  intros Hc Hx. destruct (Ascii.eqb c x) eqn:E; [|reflexivity].
  apply Ascii.eqb_eq in E. subst. congruence.
Qed.

Ltac split_conds :=
  repeat match goal with
  | H : (_ && _) = true |- _ => apply andb_true_iff in H; destruct H
  | H : (_ || _) = true |- _ => apply orb_true_iff in H; destruct H
  | H : false = true |- _ => discriminate H
  | H : true = true |- _ => clear H
  | H : Ascii.eqb _ _ = true |- _ => apply Ascii.eqb_eq in H; subst
  end.

Lemma py_count_String c s x :
  py_count (String c s) x = (if Ascii.eqb c x then 1 else 0) + py_count s x.
Proof. unfold py_count. cbn. destruct (Ascii.eqb c x); reflexivity. Qed.

Lemma count_if_String p c s :
  count_if p (String c s) = (if p c then 1 else 0) + count_if p s.
Proof. unfold count_if. cbn. destruct (p c); reflexivity. Qed.

Lemma getFPLelemtype_ufx db t :
  String.eqb t "DCT" = false -> ufx_rule1 t || ufx_rule2 t = true ->
  getFPLelemtype db t = Some "ufx".
Proof.
  intros Hd Hr. unfold getFPLelemtype. cbv zeta. rewrite Hd.
  unfold ufx_rule1, ufx_rule2 in Hr. cbv zeta in Hr.
  destruct (_ && _ && (5 <=? _)); [reflexivity|]. cbn [orb] in Hr. rewrite Hr. reflexivity.
Qed.

Ltac ufx_layout t L C :=
  apply Nat.eqb_eq in L;
  repeat (let c := fresh "c" in destruct t as [|c t]; [discriminate L|]);
  destruct t; [|discriminate L];
  cbn -[py_isdigit_char Ascii.eqb] in C; apply negb_false_iff in C; split_conds;
  (apply getFPLelemtype_ufx;
   [cbn -[py_isdigit_char Ascii.eqb]
   |unfold ufx_rule1, ufx_rule2; cbv zeta; rewrite ?py_count_String, ?count_if_String]);
  repeat match goal with
  | H : py_isdigit_char ?c = true |- context [Ascii.eqb ?c ?x] =>
      rewrite (digit_neq c x H) by reflexivity
  | H : py_isdigit_char ?c = true |- context [py_isdigit_char ?c] => rewrite H
  end; reflexivity.

(** Every token the unnamed-waypoint decoder accepts is classified
    ["ufx"], whatever the database: the classifier's counting rules cover
    the six fixed-column layouts. *)
Theorem UnnamedWaypoint_classified_ufx (db : NavDB) (t : string) (w : WayPoint) :
  UnnamedWaypoint_init t = Ok w -> getFPLelemtype db t = Some "ufx".
Proof.
  intros H. unfold UnnamedWaypoint_init in H. inv_bind H. clear H.
  unfold decode_layout in Hx. cbv zeta in Hx.
  destruct (String.length t =? 16) eqn:L.
  { destruct (negb _) eqn:C; [discriminate Hx|]. clear Hx. ufx_layout t L C. }
  destruct (String.length t =? 12) eqn:L12.
  { destruct (negb _) eqn:C; [discriminate Hx|]. clear Hx L. ufx_layout t L12 C. }
  destruct (String.length t =? 15) eqn:L15.
  { destruct (negb _) eqn:C; [discriminate Hx|]. clear Hx L L12. ufx_layout t L15 C. }
  destruct (String.length t =? 11) eqn:L11.
  { destruct (negb _) eqn:C; [discriminate Hx|]. clear Hx L L12 L15. ufx_layout t L11 C. }
  destruct (String.length t =? 5) eqn:L5.
  { destruct (negb _) eqn:C; [discriminate Hx|]. clear Hx L L12 L15 L11. ufx_layout t L5 C. }
  destruct (String.length t =? 7) eqn:L7.
  { destruct (negb _) eqn:C; [discriminate Hx|]. clear Hx L L12 L15 L11 L5. ufx_layout t L7 C. }
  discriminate Hx.
Qed.

Lemma UnnamedWaypoint_classified_ufx_witness :
  UnnamedWaypoint_init "87N060W" = Ok (mkWpt "87N060W" 87 (-60) "uWPT" "")
  /\ getFPLelemtype db_empty "87N060W" = Some "ufx".
Proof.
  assert (H : UnnamedWaypoint_init "87N060W" = Ok (mkWpt "87N060W" 87 (-60) "uWPT" ""))
    by (vm_compute; reflexivity).
  split; [exact H|exact (UnnamedWaypoint_classified_ufx db_empty _ _ H)].
Defined.

(** ** Azimuths of a leg *)

Lemma wrap_azimuth_range (a : Q) :
  (-180 <= a <= 180)%Q -> (0 <= wrap_azimuth a < 360)%Q.
Proof.
  intros [H1 H2]. unfold wrap_azimuth, Qlt_bool.
  destruct (Qle_bool 0 a) eqn:E; cbn [negb].
  - apply Qle_bool_iff in E. lra.
  - assert (a < 0)%Q.
    { apply Qnot_le_lt. intros Hle. apply Qle_bool_iff in Hle. congruence. }
    lra.
Qed.



(** ** Cycle headers *)

Lemma check_header_inv (ao ao' : option AIRACcycle) (l label : string) :
  check_header ao l label = Ok ao' ->
  (forall x, ao = Some x -> ao' = Some x)
  /\ (py_contains (py_slice l 1 6) "AIRAC" = true -> header_agrees ao' l).
Proof.
  unfold check_header. destruct (py_contains _ _) eqn:E.
  - destruct ao as [a0|].
    + intros H. inv_bind H.
      destruct (AIRACcycle_eq x a0) eqn:Q; [|discriminate H].
      injection H as <-. split; [intros y Hy; exact Hy|intros _].
      exists x, a0. repeat split; [exact Hx|]. apply Z.eqb_eq, Q.
    + intros H. inv_bind H. injection H as <-.
      split; [discriminate|intros _]. exists x, x. auto.
  - intros H. injection H as <-. split; [auto|discriminate].
Qed.

Lemma is_cycle_header_data (l : string) (c : ascii) :
  py_index l 0 = Ok c -> Ascii.eqb c ";" = false -> is_cycle_header l = false.
Proof.
  unfold py_index, is_cycle_header. destruct (String.get 0 l); [|discriminate].
  intros H E. injection H as ->. rewrite E. reflexivity.
Qed.

Lemma is_cycle_header_contains (l : string) (c : ascii) :
  py_index l 0 = Ok c -> is_cycle_header l = true ->
  py_contains (py_slice l 1 6) "AIRAC" = true.
Proof.
  unfold py_index, is_cycle_header. destruct (String.get 0 l); [|discriminate].
  intros _ H. apply andb_true_iff in H. apply H.
Qed.

Lemma load_points_airac parse label (ls : list string) (st st' : LState) :
  load_points parse label ls st = Ok st' ->
  (forall x, s_airac st = Some x -> s_airac st' = Some x)
  /\ Forall (fun l => is_cycle_header l = true -> header_agrees (s_airac st') l) ls.
Proof.
  revert st. induction ls as [|l ls IH]; intros st H.
  - injection H as <-. auto.
  - cbn [load_points] in H. inv_bind H.
    destruct (Ascii.eqb x ";") eqn:Ec.
    + inv_bind H. apply IH in H as [Hp Hf]. cbn in Hp.
      apply check_header_inv in Hx0 as [Hk Hh].
      split; [intros y Hy; exact (Hp y (Hk y Hy))|constructor; [|exact Hf]].
      intros Hl. apply (is_cycle_header_contains _ _ Hx) in Hl.
      destruct (Hh Hl) as (a & a' & Ha & Ea & Hc).
      exists a, a'. rewrite (Hp a' Ea). auto.
    + inv_bind H. destruct x0 as [n w]. apply IH in H as [Hp Hf]. cbn in Hp.
      split; [exact Hp|constructor; [|exact Hf]].
      rewrite (is_cycle_header_data _ _ Hx Ec). discriminate.
Qed.

Lemma load_routes_airac (ls : list string) (st st' : RState) :
  load_routes ls st = Ok st' ->
  (forall x, r_airac st = Some x -> r_airac st' = Some x)
  /\ Forall (fun l => is_cycle_header l = true -> header_agrees (r_airac st') l) ls.
Proof.
  revert st. induction ls as [|l ls IH]; intros st H.
  - injection H as <-. auto.
  - cbn [load_routes] in H. inv_bind H.
    destruct (Ascii.eqb x ";") eqn:Ec.
    + inv_bind H. apply IH in H as [Hp Hf]. cbn in Hp.
      apply check_header_inv in Hx0 as [Hk Hh].
      split; [intros y Hy; exact (Hp y (Hk y Hy))|constructor; [|exact Hf]].
      intros Hl. apply (is_cycle_header_contains _ _ Hx) in Hl.
      destruct (Hh Hl) as (a & a' & Ha & Ea & Hc).
      exists a, a'. rewrite (Hp a' Ea). auto.
    + assert (Hn : is_cycle_header l = false) by exact (is_cycle_header_data _ _ Hx Ec).
      destruct (py_split l) as [|n [|nr [|wn [|las [|los [|]]]]]]; try discriminate H.
      inv_bind H. inv_bind H.
      destruct (String.eqb _ n); apply IH in H as [Hp Hf]; cbn in Hp;
        (split; [exact Hp|constructor; [|exact Hf]]); rewrite Hn; discriminate.
Qed.

(** A database that loads keeps one AIRAC cycle: a cycle given to [_load]
    is kept, and every cycle header line of the five files parses and
    carries the cycle number of the database's [airac]. *)
Theorem load_airac_consistent (fs : FileSystem) (datadir : string)
    (airac0 : option AIRACcycle) (db : NavDB) (file : string) (ls : list string) :
  _load fs datadir airac0 = Ok db ->
  In file ["/wpNavAID.txt"; "/wpNavFIX.txt"; "/wpNavAPT.txt"; "/airports.dat";
           "/wpNavRTE.txt"] ->
  fs (datadir ++ file) = Some ls ->
  (forall x, airac0 = Some x -> airac db = Some x)
  /\ Forall (fun l => is_cycle_header l = true -> header_agrees (airac db) l) ls.
Proof.
  intros H Hf E.
  destruct (_load_inv _ _ _ _ H)
    as (g1 & st1 & g2 & st2 & g3 & st3 & g4 & st4 & g5 & rst & awys & noawys
        & O1 & L1 & O2 & L2 & O3 & L3 & O4 & L4 & O5 & L5 & _ & ->).
  cbn [airac].
  apply load_points_airac in L1 as [P1 F1], L2 as [P2 F2], L3 as [P3 F3],
    L4 as [P4 F4].
  apply load_routes_airac in L5 as [P5 F5]. cbn in P1, P2, P3, P4, P5.
  assert (K : forall o l, header_agrees o l -> (forall x, o = Some x -> r_airac rst = Some x)
                -> header_agrees (r_airac rst) l).
  { intros o l (a & a' & Ha & Eo & Hc) Hk. exists a, a'. auto. }
  split; [intros x Hx; exact (P5 _ (P4 _ (P3 _ (P2 _ (P1 _ Hx)))))|].
  unfold py_open in O1, O2, O3, O4, O5.
  destruct Hf as [<-|[<-|[<-|[<-|[<-|[]]]]]]; rewrite E in *;
    [injection O1 as <-|injection O2 as <-|injection O3 as <-|injection O4 as <-
    |injection O5 as <-; exact F5];
    [eapply Forall_impl; [exact F1|] | eapply Forall_impl; [exact F2|]
    | eapply Forall_impl; [exact F3|] | eapply Forall_impl; [exact F4|]];
    intros l Hl Hh; apply (K _ _ (Hl Hh)); auto.
Qed.

Lemma load_airac_consistent_witness :
  (_load fs_small "navdata" None = Ok db_small
   /\ In "/wpNavRTE.txt" ["/wpNavAID.txt"; "/wpNavFIX.txt"; "/wpNavAPT.txt";
                          "/airports.dat"; "/wpNavRTE.txt"]
   /\ fs_small ("navdata" ++ "/wpNavRTE.txt") = Some small_rte)
  /\ Forall (fun l => is_cycle_header l = true -> header_agrees (airac db_small) l)
       small_rte.
Proof.
  assert (H5 : fs_small ("navdata" ++ "/wpNavRTE.txt") = Some small_rte)
    by (vm_compute; reflexivity).
  assert (Hin : In "/wpNavRTE.txt" ["/wpNavAID.txt"; "/wpNavFIX.txt"; "/wpNavAPT.txt";
                                    "/airports.dat"; "/wpNavRTE.txt"])
    by (right; right; right; right; left; reflexivity).
  split; [exact (conj load_small (conj Hin H5))|].
  exact (proj2 (load_airac_consistent fs_small "navdata" None db_small _ _
                  load_small Hin H5)).
Defined.

(** ** An unnamed waypoint before any resolved waypoint *)

(** C10: if token [k] is an unnamed waypoint and no earlier token leaves a
    last-resolved waypoint (whatever those tokens are: DCT, NAT tracks,
    procedures or airways skipped at the plan's edge or matching no SID or
    STAR pattern, ...), [expandFPL] raises and the decoded point is never
    appended; with the token check and the earlier tokens passed, the error
    is either the decoder's own or the [AttributeError] of [distTo(None)]. *)
Theorem expand_unnamed_without_last_fails (geod_s12 : Q -> Q -> Q -> Q -> Q)
    (db : NavDB) (s : string) (k : nat)
    (Hk : k < List.length (py_split s))
    (Hufx : getFPLelemtype db (nth k (py_split s) "") = Some "ufx")
    (Hnone : forall st,
       expand_loop geod_s12 db (py_split s) (seq 0 k) (mkExp [] None 0) = Ok st ->
       last_wpt st = None) :
  exists e, expandFPL geod_s12 db s = Err e
    /\ (check_tokens (py_split s) = Ok tt ->
        (exists st, expand_loop geod_s12 db (py_split s) (seq 0 k) (mkExp [] None 0) = Ok st) ->
        e = AttributeError \/ UnnamedWaypoint_init (nth k (py_split s) "") = Err e).
Proof.
  unfold expandFPL. cbv zeta.
  set (arr := py_split s) in *.
  destruct (check_tokens arr) as [[]|e0]; cbn [mbind result_bind];
    [|exists e0; split; [reflexivity|discriminate]].
  replace (List.length arr) with (k + S (List.length arr - k - 1)) by lia.
  rewrite seq_app, expand_loop_app. cbn [Nat.add].
  destruct (expand_loop geod_s12 db arr (seq 0 k) (mkExp [] None 0)) as [st|e0] eqn:E;
    cbn [mbind result_bind];
    [|exists e0; split; [reflexivity|intros _ [st' Hst']; discriminate Hst']].
  pose proof (Hnone st eq_refl) as Hl.
  destruct st as [ws l n]. cbn in Hl. subst l.
  cbn [seq expand_loop].
  destruct (expand_step_ufx_no_last geod_s12 db arr k ws n Hufx) as [e [He Hcase]].
  rewrite He. exists e. split; [reflexivity|]. intros _ _. exact Hcase.
Qed.

Lemma expand_unnamed_without_last_fails_witness :
  2 < List.length (py_split "DCT XYZ1A N1234.5/E16759.9 EGLL")
  /\ getFPLelemtype db_london (nth 2 (py_split "DCT XYZ1A N1234.5/E16759.9 EGLL") "")
     = Some "ufx"
  /\ (forall st,
       expand_loop geod_planar db_london (py_split "DCT XYZ1A N1234.5/E16759.9 EGLL")
         (seq 0 2) (mkExp [] None 0) = Ok st -> last_wpt st = None)
  /\ exists e, expandFPL geod_planar db_london "DCT XYZ1A N1234.5/E16759.9 EGLL" = Err e
    /\ (check_tokens (py_split "DCT XYZ1A N1234.5/E16759.9 EGLL") = Ok tt ->
        (exists st, expand_loop geod_planar db_london
                      (py_split "DCT XYZ1A N1234.5/E16759.9 EGLL") (seq 0 2)
                      (mkExp [] None 0) = Ok st) ->
        e = AttributeError
        \/ UnnamedWaypoint_init (nth 2 (py_split "DCT XYZ1A N1234.5/E16759.9 EGLL") "")
           = Err e).
Proof.
  assert (H1 : 2 < List.length (py_split "DCT XYZ1A N1234.5/E16759.9 EGLL"))
    by (vm_compute; lia).
  assert (H2 : getFPLelemtype db_london (nth 2 (py_split "DCT XYZ1A N1234.5/E16759.9 EGLL") "")
               = Some "ufx") by (vm_compute; reflexivity).
  assert (H3 : forall st,
       expand_loop geod_planar db_london (py_split "DCT XYZ1A N1234.5/E16759.9 EGLL")
         (seq 0 2) (mkExp [] None 0) = Ok st -> last_wpt st = None).
  { intros st H. vm_compute in H. injection H as <-. reflexivity. }
  exact (conj H1 (conj H2 (conj H3
           (expand_unnamed_without_last_fails geod_planar db_london _ 2 H1 H2 H3)))).
Defined.
